(** * cChatearn: the chat turn handler and its reward accrual

    A shallow embedding of the edge function that serves one chat turn
    (conversation resolution, bounded history, completion call, message
    persistence, content screen) and of the background task that credits
    points and maintains the daily streak.

    Conventions of the model
    - A calendar date (the [DATE] column [last_activity_date], and the
      [YYYY-MM-DD] prefix of [toISOString()]) is the number of the UTC day
      it denotes, counted from the epoch; two dates are the same text
      exactly when they are the same day number.
    - The integer columns [total_points] and [current_streak] are [Z].
      The columns are 32-bit; a total or a streak at the upper end of
      that range, where the store would refuse the update of the task,
      is outside the scope of the model.
    - Row-level security is enabled on every table.  The handler acts
      with the caller's token, so a write goes through only where a
      policy of the schema permits the command ([Policies]); for the
      inserts whose result the handler reads, the outcome is given by
      the environment.
    - Text is [string]; a character stands for one UTF-16 code unit below
      256, on which [toLowerCase] is the Latin-1 case mapping.
    - The database is a record of tables.  [profiles] is keyed by
      [user_id] (the column is UNIQUE); [messages], [conversations] and
      [rewards] are lists in creation order, so that ordering a select
      by [created_at] ascending is the order of the list. *)

From Stdlib Require Import ZArith List Bool Ascii String DecimalString Lia.
From stdpp Require Import base option list gmap strings.

(** ** Calendar days *)

Module Clock.

Local Open Scope Z_scope.

Definition Date := Z.

(** [24 * 60 * 60 * 1000] *)
Definition day_ms : Z := 24 * 60 * 60 * 1000.

(** [new Date(t).toISOString().split('T')[0]]: the UTC day of the
    instant [t] (milliseconds since the epoch). *)
Definition iso_date (t : Z) : Date := t / day_ms.

(** [const today = new Date().toISOString().split('T')[0]] *)
Definition today (now : Z) : Date := iso_date now.

(** [const yesterday = new Date(Date.now() - 24 * 60 * 60 * 1000)
      .toISOString().split('T')[0]] *)
Definition yesterday (now : Z) : Date := iso_date (now - day_ms).

(** The two readings of the clock in the reward task: [new Date()], from
    which [today] is taken, and then [Date.now()], from which
    [yesterday] is taken. *)
Record Readings := {
  at_date : Z;
  at_now : Z;
}.

(** Both readings at the one instant [t]. *)
Definition instant (t : Z) : Readings := {| at_date := t; at_now := t |}.

(** Both readings fall on the same UTC day. *)
Definition one_day (clock : Readings) : Prop :=
  today (at_now clock) = today (at_date clock).

End Clock.

Export Clock.

(** ** Tables *)

Record Profile := {
  total_points : Z;
  current_streak : Z;
  last_activity_date : option Date;
}.

Record Reward := {
  reward_user_id : string;
  type : string;
  points : Z;
  description : string;
}.

Inductive Role := user | assistant.

Record Message := {
  conversation_id : string;
  role : Role;
  content : string;
  tokens_used : Z;
  response_time_ms : Z;
}.

Record Conversation := {
  conv_id : string;
  conv_user_id : string;
  title : string;
}.

Record DB := {
  profiles : gmap string Profile;
  conversations : list Conversation;
  messages : list Message;
  rewards : list Reward;
  style_packs : gmap string string;
}.

(** ** Row-level policies

    Every table has row-level security enabled, and these are the
    policies that the schema creates, for a caller acting on rows of
    their own: profiles can be read, updated and inserted;
    conversations read, created, updated and deleted; messages read and
    inserted; rewards only read; style packs only read; purchased style
    packs read and inserted.  A command without a policy is refused. *)

Module Policies.

Inductive Table :=
| profiles_table
| conversations_table
| messages_table
| rewards_table
| style_packs_table
| user_style_packs_table.

Inductive Command := SELECT | INSERT | UPDATE | DELETE.

Definition permitted (table : Table) (command : Command) : bool :=
  match table, command with
  | profiles_table, (SELECT | UPDATE | INSERT) => true
  | conversations_table, _ => true
  | messages_table, (SELECT | INSERT) => true
  | rewards_table, SELECT => true
  | style_packs_table, SELECT => true
  | user_style_packs_table, (SELECT | INSERT) => true
  | _, _ => false
  end.

End Policies.

Export Policies.

(** ** Reward accrual (the background task) *)

Module Rewards.

Local Open Scope Z_scope.

(** [profile.last_activity_date !== today] compares a nullable date
    with a date. *)
Definition date_is (d : option Date) (day : Date) : bool :=
  match d with
  | Some x => x =? day
  | None => false
  end.

(** The streak branches:
<<
    let pointsToAdd = 1;
    let newStreak = profile.current_streak;
    if (profile.last_activity_date !== today) {
      if (profile.last_activity_date === yesterday) {
        newStreak += 1; pointsToAdd += 5;
      } else { newStreak = 1; }
    }
>>
    The result is [(pointsToAdd, newStreak)]. *)
Definition streak_branches (today yesterday : Date) (profile : Profile)
  : Z * Z :=
  let pointsToAdd := 1 in
  let newStreak := current_streak profile in
  if negb (date_is (last_activity_date profile) today) then
    if date_is (last_activity_date profile) yesterday then
      (pointsToAdd + 5, newStreak + 1)
    else
      (pointsToAdd, 1)
  else
    (pointsToAdd, newStreak).

(** [if (isBoost && profile.total_points >= 10) pointsToAdd -= 10] *)
Definition boost_deduction (isBoost : bool) (profile : Profile)
    (pointsToAdd : Z) : Z :=
  if isBoost && (10 <=? total_points profile) then pointsToAdd - 10
  else pointsToAdd.

(** [pointsToAdd > 1 ? 'streak' : pointsToAdd > 0 ? 'message' : 'boost'] *)
Definition reward_type (pointsToAdd : Z) : string :=
  if 1 <? pointsToAdd then "streak"
  else if 0 <? pointsToAdd then "message"
  else "boost".

(** A number interpolated in a template literal. *)
Definition show (n : Z) : string := NilZero.string_of_int (Z.to_int n).

Definition reward_description (pointsToAdd newStreak : Z) : string :=
  if 1 <? pointsToAdd then "Daily streak: " +:+ show newStreak +:+ " days"
  else if 0 <? pointsToAdd then "Message sent"
  else "Boost used".

Definition reward_row (uid : string) (pointsToAdd newStreak : Z) : Reward :=
  {| reward_user_id := uid;
     type := reward_type pointsToAdd;
     points := pointsToAdd;
     description := reward_description pointsToAdd newStreak |}.

(** [pointsToAdd] as it stands after the boost deduction. *)
Definition points_to_add (clock : Readings) (isBoost : bool)
    (profile : Profile) : Z :=
  boost_deduction isBoost profile
    (fst (streak_branches (today (at_date clock)) (yesterday (at_now clock))
            profile)).

Definition new_streak (clock : Readings) (profile : Profile) : Z :=
  snd (streak_branches (today (at_date clock)) (yesterday (at_now clock))
         profile).

(** [.from('profiles').update({...}).eq('user_id', user.id)]: the row of
    the caller is replaced where the policies permit the update; the
    task does not read the result. *)
Definition update_profile (uid : string) (updated : Profile) (db : DB) : DB :=
  if permitted profiles_table UPDATE then
    {| profiles := <[uid := updated]> (profiles db);
       conversations := conversations db;
       messages := messages db;
       rewards := rewards db;
       style_packs := style_packs db |}
  else db.

(** [.from('rewards').insert({...})]: the row is appended where the
    policies permit the insert; the task does not read the result. *)
Definition insert_reward (row : Reward) (db : DB) : DB :=
  if permitted rewards_table INSERT then
    {| profiles := profiles db;
       conversations := conversations db;
       messages := messages db;
       rewards := rewards db ++ [row];
       style_packs := style_packs db |}
  else db.

(** The body of the task, run with the clock readings [clock] for user
    [uid]: select the profile, and when there is one update it and
    record the reward transaction. *)
Definition rewards_task (clock : Readings) (uid : string) (isBoost : bool)
    (db : DB) : DB :=
  match profiles db !! uid with
  | None => db
  | Some profile =>
      let today := today (at_date clock) in
      let yesterday := yesterday (at_now clock) in
      let '(pointsToAdd, newStreak) := streak_branches today yesterday profile in
      let pointsToAdd := boost_deduction isBoost profile pointsToAdd in
      let updated :=
        {| total_points := total_points profile + pointsToAdd;
           current_streak := newStreak;
           last_activity_date := Some today |} in
      let db1 := update_profile uid updated db in
      if negb (pointsToAdd =? 0)
      then insert_reward (reward_row uid pointsToAdd newStreak) db1
      else db1
  end.

End Rewards.

Export Rewards.


(** ** Text: the string operations the handler uses *)

Module Text.

Local Open Scope nat_scope.

Definition in_range (lo hi : nat) (c : ascii) : bool :=
  (lo <=? nat_of_ascii c) && (nat_of_ascii c <=? hi).

(** One code unit of [String.prototype.toLowerCase()]: [A-Z], and the
    Latin-1 capitals U+00C0..U+00DE other than the sign U+00D7, move
    up by 32; every other code unit below 256 is its own lower case. *)
Definition lower_char (c : ascii) : ascii :=
  if in_range 65 90 c then ascii_of_nat (nat_of_ascii c + 32)
  else if in_range 192 222 c && negb (nat_of_ascii c =? 215)
  then ascii_of_nat (nat_of_ascii c + 32)
  else c.

Fixpoint toLowerCase (s : string) : string :=
  match s with
  | EmptyString => EmptyString
  | String c rest => String (lower_char c) (toLowerCase rest)
  end.

(** [s.slice(start, end)]: negative indices count from the end, both
    are clamped to the length, an empty span gives the empty string. *)
Definition slice (s : string) (start finish : Z) : string :=
  let len := Z.of_nat (String.length s) in
  let from := if (start <? 0)%Z then Z.max (len + start) 0 else Z.min start len in
  let to := if (finish <? 0)%Z then Z.max (len + finish) 0 else Z.min finish len in
  let span := Z.max (to - from) 0 in
  substring (Z.to_nat from) (Z.to_nat span) s.

(** *** Regular expressions

    The fragment of the pattern language that the content screen uses,
    with the backtracking semantics of the language definition: a
    matcher takes the position and a continuation for the rest of the
    pattern. *)

Inductive Regex :=
| Eps
| Chr (c : ascii)
| Cat (r1 r2 : Regex)
| Alt (r1 r2 : Regex)
| WordBoundary.

(** The class of [\w] and of the assertion [\b]: [[A-Za-z0-9_]]. *)
Definition isWordChar (c : ascii) : bool :=
  in_range 97 122 c || in_range 65 90 c || in_range 48 57 c
  || (nat_of_ascii c =? 95).

Definition word_at (s : list ascii) (i : nat) : bool :=
  match s !! i with
  | Some c => isWordChar c
  | None => false
  end.

(** [\b] at position [e]: exactly one of the characters at [e - 1]
    and [e] is a word character; positions outside the input are not. *)
Definition is_word_boundary (s : list ascii) (e : nat) : bool :=
  let a := match e with O => false | S p => word_at s p end in
  let b := word_at s e in
  xorb a b.

(** Canonicalization under the flag [i] (without [u]): a code unit is
    compared through its upper case, and a code unit of 128 or more is
    never identified with one below 128.  Only patterns over ASCII are
    built here, so the upper case of [a-z] is all that takes part. *)
Definition canonicalize (ignoreCase : bool) (c : ascii) : ascii :=
  if ignoreCase && in_range 97 122 c then ascii_of_nat (nat_of_ascii c - 32)
  else c.

Fixpoint matcher (ignoreCase : bool) (r : Regex) (s : list ascii)
    (i : nat) (k : nat -> bool) : bool :=
  match r with
  | Eps => k i
  | Chr c =>
      match s !! i with
      | Some d =>
          Ascii.eqb (canonicalize ignoreCase c) (canonicalize ignoreCase d)
          && k (S i)
      | None => false
      end
  | Cat r1 r2 => matcher ignoreCase r1 s i (fun j => matcher ignoreCase r2 s j k)
  | Alt r1 r2 => matcher ignoreCase r1 s i k || matcher ignoreCase r2 s i k
  | WordBoundary => is_word_boundary s i && k i
  end.

(** [regex.test(s)] for a pattern without the [g] and [y] flags: is
    there a start position from which the pattern matches? *)
Definition test (ignoreCase : bool) (r : Regex) (s : string) : bool :=
  let input := list_ascii_of_string s in
  existsb (fun i => matcher ignoreCase r input i (fun _ => true))
          (seq 0 (S (length input))).

(** A literal word, character by character. *)
Fixpoint literal (w : list ascii) : Regex :=
  match w with
  | [] => Eps
  | c :: rest => Cat (Chr c) (literal rest)
  end.

Definition word (w : string) : Regex := literal (list_ascii_of_string w).

(** A word of lower-case letters, as the banned words are. *)
Definition plain_word (l : list ascii) : Prop :=
  l <> [] /\ Forall (fun c => in_range 97 122 c = true) l.

End Text.

Export Text.

(** ** The turn handler *)

Module Handler.

Local Open Scope Z_scope.

Record ChatRequest := {
  message : string;
  conversationId : option string;
  stylePackId : option string;
  isBoost : option bool;
}.

(** One entry of [contents]: [{ role, parts: [{ text }] }]. *)
Inductive GeminiRole := role_user | role_model.

Record GeminiTurn := {
  turn_role : GeminiRole;
  turn_text : string;
}.

(** The part of the completion service's answer that the handler
    reads.  A field that is absent is [None]. *)
Record Part := { text : option string }.
Record Content := { parts : option (list Part) }.
Record Candidate := { candidate_content : option Content }.
Record GeminiData := {
  candidates : option (list Candidate);
  totalTokenCount : option Z;   (* usageMetadata?.totalTokenCount *)
}.
Record GeminiResponse := {
  ok : bool;
  status : Z;
  errorText : string;           (* the body read as text *)
  json : option GeminiData;     (* the body read as JSON, when it parses *)
}.

(** What the outside world contributes to one request. *)
Record Env := {
  GEMINI_API_KEY : option string;
  SUPABASE_URL : option string;
  SUPABASE_ANON_KEY : option string;
  (** [supabase.auth.getUser()]: an error message, or the user id if any *)
  getUser : string -> string + option string;
  (** the row returned by the insert into [conversations], unless [convError] *)
  newConversation : option string;
  historyError : bool;
  userMsgError : bool;
  aiMsgError : bool;
  (** [fetch] of the completion endpoint *)
  gemini : list GeminiTurn -> GeminiResponse;
  (** [Date.now()] on entry and after the reply, and the two readings
      of the background task *)
  startTime : Z;
  replyTime : Z;
  rewardsTime : Readings;
}.

Record ChatResponse := {
  response : string;
  responseConversationId : string;
  tokensUsed : Z;
  responseTime : Z;
  pointsAwarded : bool;
}.

(** The errors thrown inside the handler's [try]. *)
Inductive Thrown :=
| GeminiKeyNotConfigured
| SupabaseConfigurationMissing
| NoAuthorizationHeader
| AuthenticationFailed (reason : string)
| NoUserFound
| BodySyntaxError
| FailedToCreateConversation
| FailedToFetchHistory
| GeminiApiError (status : Z) (errorText : string)
| GeminiBodySyntaxError
| InvalidGeminiResponse.

(** The errors that come from the completion service. *)
Definition UpstreamError (e : Thrown) : bool :=
  match e with
  | GeminiApiError _ _ | GeminiBodySyntaxError | InvalidGeminiResponse => true
  | _ => false
  end.

(** The handler answers 200 with a body, or 500 from its [catch]. *)
Inductive HttpResponse :=
| Ok200 (body : ChatResponse)
| Error500 (error : Thrown).

(** A string in a condition: absent and empty are false. *)
Definition truthy (o : option string) : bool :=
  match o with
  | Some s => negb (String.eqb s "")
  | None => false
  end.

Definition truthy_flag (o : option bool) : bool :=
  match o with
  | Some b => b
  | None => false
  end.

(** [message.slice(0, 50) + (message.length > 50 ? '...' : '')] *)
Definition conversation_title (message : string) : string :=
  slice message 0 50
  +:+ (if (50 <? String.length message)%nat then "..." else "").

Definition insert_conversation (row : Conversation) (db : DB) : DB :=
  {| profiles := profiles db;
     conversations := conversations db ++ [row];
     messages := messages db;
     rewards := rewards db;
     style_packs := style_packs db |}.

Definition insert_message (row : Message) (db : DB) : DB :=
  {| profiles := profiles db;
     conversations := conversations db;
     messages := messages db ++ [row];
     rewards := rewards db;
     style_packs := style_packs db |}.

(** Get or create the conversation. *)
Definition resolve_conversation (env : Env) (uid : string)
    (req : ChatRequest) (db : DB) : Thrown + string * DB :=
  match conversationId req with
  | Some currentConversationId =>
      if truthy (Some currentConversationId)
      then inr (currentConversationId, db)
      else
        match newConversation env with
        | None => inl FailedToCreateConversation
        | Some newId =>
            inr (newId,
                 insert_conversation
                   {| conv_id := newId; conv_user_id := uid;
                      title := conversation_title (message req) |} db)
        end
  | None =>
      match newConversation env with
      | None => inl FailedToCreateConversation
      | Some newId =>
          inr (newId,
               insert_conversation
                 {| conv_id := newId; conv_user_id := uid;
                    title := conversation_title (message req) |} db)
      end
  end.

(** [.from('messages').select('role, content')
     .eq('conversation_id', id).order('created_at', { ascending: true })
     .limit(10)] *)
Definition select_history (currentConversationId : string) (db : DB)
  : list Message :=
  take 10
    (List.filter (fun m => String.eqb (conversation_id m) currentConversationId)
                 (messages db)).

Definition load_history (env : Env) (currentConversationId : string)
    (db : DB) : option (list Message) :=
  if historyError env then None
  else Some (select_history currentConversationId db).

Definition default_prompt : string := "You are a helpful AI assistant.".

Definition acknowledgment : string :=
  "I understand. I will respond according to this personality and style.".

Definition system_prompt (req : ChatRequest) (db : DB) : string :=
  if truthy (stylePackId req) then
    match stylePackId req ≫= (fun sp => style_packs db !! sp) with
    | Some prompt => prompt
    | None => default_prompt
    end
  else default_prompt.

Definition history_turn (msg : Message) : GeminiTurn :=
  match role msg with
  | user => {| turn_role := role_user; turn_text := content msg |}
  | assistant => {| turn_role := role_model; turn_text := content msg |}
  end.

(** The array [messages] sent as [contents]. *)
Definition build_contents (systemPrompt : string) (messageHistory : list Message)
    (message : string) : list GeminiTurn :=
  ([ {| turn_role := role_user; turn_text := systemPrompt |};
     {| turn_role := role_model; turn_text := acknowledgment |} ]
   ++ map history_turn messageHistory)
  ++ [ {| turn_role := role_user; turn_text := message |} ].

(** [geminiData.candidates[0]?.content?.parts?.[0]?.text], with the
    guard of the handler: absent candidates, an absent link of the
    chain and an empty text are all refused. *)
Definition first_text (cs : list Candidate) : option string :=
  match cs with
  | [] => None
  | c :: _ =>
      match candidate_content c with
      | None => None
      | Some ct =>
          match parts ct with
          | None | Some [] => None
          | Some (p :: _) => text p
          end
      end
  end.

Definition candidate_text (data : GeminiData) : option string :=
  match candidates data with
  | None => None
  | Some cs =>
      match first_text cs with
      | Some t => if truthy (Some t) then Some t else None
      | None => None
      end
  end.

(** [geminiData.usageMetadata?.totalTokenCount || 0] *)
Definition tokens_used_of (data : GeminiData) : Z :=
  match totalTokenCount data with
  | Some n => if n =? 0 then 0 else n
  | None => 0
  end.

(** [/\b(violence|hate|illegal|harmful)\b/i] *)
Definition banned_words : list string :=
  ["violence"; "hate"; "illegal"; "harmful"]%string.

Definition harmful_pattern : Regex :=
  Cat WordBoundary
    (Cat (Alt (word "violence")
           (Alt (word "hate") (Alt (word "illegal") (word "harmful"))))
         WordBoundary).

(** [/.../i.test(message.toLowerCase())] *)
Definition isHarmful (message : string) : bool :=
  test true harmful_pattern (toLowerCase message).

(** The handler from the point where the caller is known and the body
    is parsed.  The background task is run to completion after the two
    message rows are written. *)
Definition turn (env : Env) (uid : string) (req : ChatRequest) (db : DB)
  : HttpResponse * DB :=
  match resolve_conversation env uid req db with
  | inl e => (Error500 e, db)
  | inr (currentConversationId, db1) =>
  match load_history env currentConversationId db1 with
  | None => (Error500 FailedToFetchHistory, db1)
  | Some messageHistory =>
  let contents :=
    build_contents (system_prompt req db1) messageHistory (message req) in
  let geminiResponse := gemini env contents in
  if negb (ok geminiResponse) then
    (Error500 (GeminiApiError (status geminiResponse) (errorText geminiResponse)),
     db1)
  else
  match json geminiResponse with
  | None => (Error500 GeminiBodySyntaxError, db1)
  | Some geminiData =>
  match candidate_text geminiData with
  | None => (Error500 InvalidGeminiResponse, db1)
  | Some aiResponse =>
  let responseTime := replyTime env - startTime env in
  let tokensUsed := tokens_used_of geminiData in
  let isHarmful := isHarmful (message req) in
  let db2 :=
    if userMsgError env then db1
    else insert_message
           {| conversation_id := currentConversationId; role := user;
              content := message req;
              tokens_used := 0; response_time_ms := 0 |} db1 in
  let db3 :=
    if aiMsgError env then db2
    else insert_message
           {| conversation_id := currentConversationId; role := assistant;
              content := aiResponse;
              tokens_used := tokensUsed; response_time_ms := responseTime |} db2 in
  let db4 :=
    if negb isHarmful
    then rewards_task (rewardsTime env) uid (truthy_flag (isBoost req)) db3
    else db3 in
  (Ok200 {| response := aiResponse;
            responseConversationId := currentConversationId;
            tokensUsed := tokensUsed;
            responseTime := responseTime;
            pointsAwarded := negb isHarmful |},
   db4)
  end end end end.

(** The request as it arrives. *)
Record Request := {
  method : string;
  authorization : option string;
  body : option ChatRequest;    (* [None]: the body is not JSON *)
}.

Inductive Served :=
| Preflight                 (* [new Response(null, { headers })], a 200 *)
| Answer (r : HttpResponse).

Definition serve (env : Env) (req : Request) (db : DB) : Served * DB :=
  if String.eqb (method req) "OPTIONS" then (Preflight, db)
  else if negb (truthy (GEMINI_API_KEY env))
  then (Answer (Error500 GeminiKeyNotConfigured), db)
  else if negb (truthy (SUPABASE_URL env)) || negb (truthy (SUPABASE_ANON_KEY env))
  then (Answer (Error500 SupabaseConfigurationMissing), db)
  else
    match authorization req with
    | None => (Answer (Error500 NoAuthorizationHeader), db)
    | Some authHeader =>
        if negb (truthy (Some authHeader))
        then (Answer (Error500 NoAuthorizationHeader), db)
        else
          match getUser env authHeader with
          | inl reason => (Answer (Error500 (AuthenticationFailed reason)), db)
          | inr None => (Answer (Error500 NoUserFound), db)
          | inr (Some uid) =>
              match body req with
              | None => (Answer (Error500 BodySyntaxError), db)
              | Some chat =>
                  let '(r, db') := turn env uid chat db in
                  (Answer r, db')
              end
          end
    end.

End Handler.

Export Handler.

(** ** The specification's vocabulary

    What follows is worded after the specification, to be compared with
    the code above. *)

Module Spec.

Local Open Scope Z_scope.

(** The three streak cases, as [(pointsToAdd, streak)] before any
    boost deduction. *)
Inductive streak_rule (last : option Date) (today : Date) (streak : Z)
  : Z * Z -> Prop :=
| same_day :
    last = Some today -> streak_rule last today streak (1, streak)
| consecutive_day :
    last = Some (today - 1) -> streak_rule last today streak (6, streak + 1)
| gap_or_first :
    last <> Some today -> last <> Some (today - 1) ->
    streak_rule last today streak (1, 1).

(** [streak] when [pointsToAdd > 1], [message] when
    [0 < pointsToAdd <= 1], otherwise [boost]. *)
Definition ledger_category (pointsToAdd : Z) : string :=
  if decide (pointsToAdd > 1) then "streak"
  else if decide (0 < pointsToAdd /\ pointsToAdd <= 1) then "message"
  else "boost".

(** The stored activity date of a user, [None] for no profile and for
    a profile that has never been credited. *)
Definition stored_date (uid : string) (db : DB) : option Date :=
  profiles db !! uid ≫= last_activity_date.

(** Dates in calendar order; the null date comes before every date. *)
Definition date_le (a b : option Date) : Prop :=
  match a, b with
  | None, _ => True
  | Some _, None => False
  | Some x, Some y => x <= y
  end.

(** A sequence of accrual calls for one user, each given by its clock
    readings and its boost flag; the result lists the database after
    each call. *)
Fixpoint accrual_calls (uid : string) (calls : list (Readings * bool)) (db : DB)
  : list DB :=
  match calls with
  | [] => []
  | (clock, isBoost) :: rest =>
      let db' := rewards_task clock uid isBoost db in
      db' :: accrual_calls uid rest db'
  end.

Definition reference_date (call : Readings * bool) : option Date :=
  Some (today (at_date (fst call))).

(** Each date of the list is followed by one that is not earlier. *)
Fixpoint nondecreasing (dates : list (option Date)) : Prop :=
  match dates with
  | a :: (b :: _) as rest => date_le a b /\ nondecreasing rest
  | _ => True
  end.

(** Case-insensitive substring match against the banned words. *)
Fixpoint includes (needle hay : string) : bool :=
  String.prefix needle hay
  || match hay with
     | EmptyString => false
     | String _ rest => includes needle rest
     end.

Definition contains_banned_substring (message : string) : bool :=
  existsb (fun w => includes w (toLowerCase message)) banned_words.

(** A word occurs in a text as a whole word: it is not preceded and
    not followed by a word character. *)
Definition not_word (c : option ascii) : Prop :=
  match c with
  | Some x => isWordChar x = false
  | None => True
  end.

Definition whole_word (w : string) (s : string) : Prop :=
  exists pre post : list ascii,
    list_ascii_of_string s = pre ++ list_ascii_of_string w ++ post
    /\ not_word (last pre) /\ not_word (head post).

Definition contains_banned_word (message : string) : Prop :=
  exists w, In w banned_words /\ whole_word w (toLowerCase message).

(** The first [n] characters of a text. *)
Definition first_chars (n : nat) (s : string) : string :=
  string_of_list_ascii (take n (list_ascii_of_string s)).

(** The [n] most recent rows of a table kept oldest-first. *)
Definition most_recent {A} (n : nat) (rows : list A) : list A :=
  drop (length rows - n) rows.

Definition conversation_messages (cid : string) (db : DB) : list Message :=
  List.filter (fun m => String.eqb (conversation_id m) cid) (messages db).

End Spec.

Export Spec.

(** ** Sample data *)

Module Sample.

Local Open Scope Z_scope.

Definition reply (t : string) (n : Z) : GeminiResponse :=
  {| ok := true; status := 200; errorText := "";
     json := Some {| candidates :=
                       Some [ {| candidate_content :=
                                   Some {| parts := Some [ {| text := Some t |} ] |} |} ];
                     totalTokenCount := Some n |} |}.

Definition env : Env :=
  {| GEMINI_API_KEY := Some "key";
     SUPABASE_URL := Some "https://db.example";
     SUPABASE_ANON_KEY := Some "anon";
     getUser := fun _ => inr (Some "alice");
     newConversation := Some "c1";
     historyError := false;
     userMsgError := false;
     aiMsgError := false;
     gemini := fun _ => reply "hi" 7;
     startTime := 100;
     replyTime := 350;
     rewardsTime := instant (20000 * day_ms + 5) |}.

Definition failing_env : Env :=
  {| GEMINI_API_KEY := Some "key";
     SUPABASE_URL := Some "https://db.example";
     SUPABASE_ANON_KEY := Some "anon";
     getUser := fun _ => inr (Some "alice");
     newConversation := Some "c1";
     historyError := false;
     userMsgError := false;
     aiMsgError := false;
     gemini := fun _ => {| ok := false; status := 503;
                           errorText := "unavailable"; json := None |};
     startTime := 100;
     replyTime := 350;
     rewardsTime := instant (20000 * day_ms + 5) |}.

(** Readings on either side of UTC midnight: 23:59:59.999 of day 20000
    and 00:00:00.000 of day 20001. *)
Definition midnight : Readings :=
  {| at_date := 20001 * day_ms - 1; at_now := 20001 * day_ms |}.

Definition alice : Profile :=
  {| total_points := 12; current_streak := 3;
     last_activity_date := Some 19999 |}.

Definition db : DB :=
  {| profiles := {[ "alice" := alice ]};
     conversations := [];
     messages := [];
     rewards := [];
     style_packs := ∅ |}.

Definition request (m : string) : ChatRequest :=
  {| message := m; conversationId := None; stylePackId := None;
     isBoost := None |}.

Definition row (r : Role) (t : string) : Message :=
  {| conversation_id := "c1"; role := r; content := t;
     tokens_used := 0; response_time_ms := 0 |}.

(** A conversation of eleven stored messages, oldest first. *)
Definition long_db : DB :=
  {| profiles := {[ "alice" := alice ]};
     conversations :=
       [ {| conv_id := "c1"; conv_user_id := "alice"; title := "m1" |} ];
     messages :=
       [ row user "m1"; row assistant "m2"; row user "m3";
         row assistant "m4"; row user "m5"; row assistant "m6";
         row user "m7"; row assistant "m8"; row user "m9";
         row assistant "m10"; row user "m11" ];
     rewards := [];
     style_packs := ∅ |}.

Definition follow_up : ChatRequest :=
  {| message := "m12"; conversationId := Some "c1"; stylePackId := None;
     isBoost := None |}.

End Sample.

(** ** Profile provisioning

    The trigger [on_auth_user_created] runs [handle_new_user] for each
    new user: it inserts a profile row whose points, streak and activity
    date take the defaults of the table, 0, 0 and null. *)

Module Provisioning.

Local Open Scope Z_scope.

Definition default_profile : Profile :=
  {| total_points := 0; current_streak := 0; last_activity_date := None |}.

(** The insert is rejected when the user already has a row
    ([UNIQUE(user_id)]). *)
Definition handle_new_user (uid : string) (db : DB) : option DB :=
  match profiles db !! uid with
  | Some _ => None
  | None =>
      Some {| profiles := <[uid := default_profile]> (profiles db);
              conversations := conversations db;
              messages := messages db;
              rewards := rewards db;
              style_packs := style_packs db |}
  end.

End Provisioning.

Export Provisioning.

(** ** The chat client *)

Module Client.

Local Open Scope Z_scope.

(** A message as the chat view holds it. *)
Record ClientMessage := {
  msg_id : string;
  msg_role : Role;
  msg_content : string;
  msg_tokens_used : option Z;
  msg_response_time_ms : option Z;
  msg_created_at : string;
}.

Definition is_user (r : Role) : bool :=
  match r with user => true | assistant => false end.

Definition is_assistant (r : Role) : bool :=
  match r with user => false | assistant => true end.

(** [array.filter((x, index) => keep(x, index))], the index counted
    from [index]. *)
Fixpoint filter_indexed {A} (keep : A -> nat -> bool) (index : nat)
    (l : list A) : list A :=
  match l with
  | [] => []
  | x :: rest =>
      if keep x index then x :: filter_indexed keep (S index) rest
      else filter_indexed keep (S index) rest
  end.

(** [messages.slice().reverse().find(msg => msg.role === 'user')] *)
Definition lastUserMessage (messages : list ClientMessage)
  : option ClientMessage :=
  List.find (fun msg => is_user (msg_role msg)) (rev messages).

(** [msg.role === 'assistant' && index === messages.length - 1
     && messages[index - 1]?.role === 'user'] *)
Definition isLastAiMessage (messages : list ClientMessage)
    (msg : ClientMessage) (index : nat) : bool :=
  is_assistant (msg_role msg)
  && (Z.of_nat index =? Z.of_nat (length messages) - 1)
  && match index with
     | O => false
     | S before =>
         match messages !! before with
         | Some previous => is_user (msg_role previous)
         | None => false
         end
     end.

Definition filteredMessages (messages : list ClientMessage)
  : list ClientMessage :=
  filter_indexed (fun msg index => negb (isLastAiMessage messages msg index))
                 0 messages.

(** The state of the chat view that the handlers below read and set. *)
Record ChatState := {
  st_messages : list ClientMessage;
  st_input : string;
  st_isGenerating : bool;
}.

(** [handleRegenerate], up to the point where it schedules the send:
    [None] when it returns without touching the state. *)
Definition handleRegenerate (st : ChatState) : option ChatState :=
  if (length (st_messages st) =? 0)%nat || st_isGenerating st then None
  else
    match lastUserMessage (st_messages st) with
    | None => None
    | Some lastUser =>
        Some {| st_messages := filteredMessages (st_messages st);
                st_input := msg_content lastUser;
                st_isGenerating := st_isGenerating st |}
    end.

(** The message that [sendMessage] shows while the turn is running. *)
Definition tempUserMessage (now : Z) (nowIso : string) (userMessage : string)
  : ClientMessage :=
  {| msg_id := "temp-" +:+ show now;
     msg_role := user;
     msg_content := userMessage;
     msg_tokens_used := None;
     msg_response_time_ms := None;
     msg_created_at := nowIso |}.

(** [setMessages(prev => [...prev, tempUserMessage])] *)
Definition add_pending (temp : ClientMessage) (prev : list ClientMessage)
  : list ClientMessage :=
  prev ++ [temp].

(** [setMessages(prev => prev.filter(msg => msg.id !== tempUserMessage.id))] *)
Definition remove_pending (temp : ClientMessage) (prev : list ClientMessage)
  : list ClientMessage :=
  List.filter (fun msg => negb (String.eqb (msg_id msg) (msg_id temp))) prev.

(** The reply text of the client that calls the completion service
    itself:
    [geminiData.candidates?.[0]?.content?.parts?.[0]?.text ?? 'No response'] *)
Definition client_reply_text (data : GeminiData) : string :=
  match candidates data with
  | None => "No response"
  | Some cs =>
      match first_text cs with
      | Some t => t
      | None => "No response"
      end
  end.

(** *** The date shown beside a conversation *)

Inductive DateLabel :=
| Today
| Yesterday
| DaysAgo (n : Z)          (* [`${n} days ago`] *)
| LocaleDateString.        (* [date.toLocaleDateString()] *)

(** [Math.ceil(a / b)] on integers: the quotient of two integers below
    2^53 is rounded to a double on the same side of every integer, so
    its ceiling is the ceiling of the exact quotient. *)
Definition ceil_div (a b : Z) : Z := - ((- a) / b).

(** [formatDate], on the instant [date] that the text denotes and the
    instant [now] of the clock, both in milliseconds. *)
Definition formatDate (date now : Z) : DateLabel :=
  let diffTime := Z.abs (now - date) in
  let diffDays := ceil_div diffTime (1000 * 60 * 60 * 24) in
  if diffDays =? 1 then Today
  else if diffDays =? 2 then Yesterday
  else if diffDays <=? 7 then DaysAgo (diffDays - 1)
  else LocaleDateString.

End Client.

Export Client.

(** ** Vocabulary of the further properties *)

Module Props.

Local Open Scope Z_scope.

(** The user that the identity service reports for a request, if any. *)
Definition caller (env : Env) (request : Request) : option string :=
  match authorization request with
  | Some authHeader =>
      if truthy (Some authHeader) then
        match getUser env authHeader with
        | inr (Some uid) => Some uid
        | _ => None
        end
      else None
  | None => None
  end.

(** A sequence of accrual calls run one after the other. *)
Definition run_calls (uid : string) (calls : list (Readings * bool)) (db : DB)
  : DB :=
  fold_left (fun db call => rewards_task (fst call) uid (snd call) db) calls db.

(** The profile that an accrual writes, and the points that the calls of
    a sequence compute one after the other, from the profile each call
    finds. *)
Definition accrued (clock : Readings) (isBoost : bool) (profile : Profile)
  : Profile :=
  {| total_points := total_points profile + points_to_add clock isBoost profile;
     current_streak := new_streak clock profile;
     last_activity_date := Some (today (at_date clock)) |}.

Fixpoint run_points (calls : list (Readings * bool)) (profile : Profile)
  : list Z :=
  match calls with
  | [] => []
  | (clock, isBoost) :: rest =>
      points_to_add clock isBoost profile
      :: run_points rest (accrued clock isBoost profile)
  end.

Definition sum_points (amounts : list Z) : Z :=
  fold_right Z.add 0 amounts.

(** Each day of the list is the day that precedes it in the list, from
    [start] on, or the day after that one. *)
Fixpoint day_by_day (start : Date) (days : list Date) : Prop :=
  match days with
  | [] => True
  | d :: rest => (d = start \/ d = start + 1) /\ day_by_day d rest
  end.

(** A profile as provisioning and accruals leave it: the total is not
    negative, and once a date is stored the streak is at least 1. *)
Definition sound_profile (profile : Profile) : Prop :=
  0 <= total_points profile
  /\ 0 <= current_streak profile
  /\ (is_Some (last_activity_date profile) -> 1 <= current_streak profile).

Definition credited (profile : Profile) : Prop :=
  1 <= total_points profile
  /\ 1 <= current_streak profile
  /\ is_Some (last_activity_date profile).

(** The request without its style pack. *)
Definition without_style_pack (req : ChatRequest) : ChatRequest :=
  {| message := message req; conversationId := conversationId req;
     stylePackId := None; isBoost := isBoost req |}.

(** The characters of a pattern are lower-case letters. *)
Fixpoint lower_pattern (r : Regex) : Prop :=
  match r with
  | Eps | WordBoundary => True
  | Chr c => in_range 97 122 c = true
  | Cat r1 r2 | Alt r1 r2 => lower_pattern r1 /\ lower_pattern r2
  end.

End Props.

Export Props.

(** ** Further sample data *)

Module Fixtures.

Local Open Scope Z_scope.

Definition anonymous : Request :=
  {| method := "POST"; authorization := None;
     body := Some (Sample.request "hello") |}.

Definition history_failing_env : Env :=
  {| GEMINI_API_KEY := Some "key";
     SUPABASE_URL := Some "https://db.example";
     SUPABASE_ANON_KEY := Some "anon";
     getUser := fun _ => inr (Some "alice");
     newConversation := Some "c1";
     historyError := true;
     userMsgError := false;
     aiMsgError := false;
     gemini := fun _ => Sample.reply "hi" 7;
     startTime := 100;
     replyTime := 350;
     rewardsTime := instant (20000 * day_ms + 5) |}.

Definition styled : ChatRequest :=
  {| message := "hello"; conversationId := Some "c1";
     stylePackId := Some "no-such-pack"; isBoost := Some true |}.

Definition shown (i : string) (r : Role) (t : string) : ClientMessage :=
  {| msg_id := i; msg_role := r; msg_content := t;
     msg_tokens_used := None; msg_response_time_ms := None;
     msg_created_at := "2024-10-04T00:00:00.000Z" |}.

Definition thread : list ClientMessage :=
  [ shown "1" user "first"; shown "2" assistant "one";
    shown "3" user "second"; shown "4" assistant "two" ].

Definition viewing : ChatState :=
  {| st_messages := thread; st_input := ""; st_isGenerating := false |}.

Definition streak_week : list (Readings * bool) :=
  [ (instant (20000 * day_ms + 5), false);
    (instant (20000 * day_ms + 90), true);
    (instant (20001 * day_ms + 7), false);
    (instant (20002 * day_ms), false) ].

End Fixtures.

(** * Theorems *)

(** ** Calendar days *)

Section ClockFacts.

Local Open Scope Z_scope.

Lemma yesterday_today now : yesterday now = today now - 1.
Proof.
  unfold yesterday, today, iso_date.
  replace (now - day_ms) with (now + (-1) * day_ms) by ring.
  rewrite Z.div_add by (unfold day_ms; lia). lia.
Qed.

Lemma today_mono a b : a <= b -> today a <= today b.
Proof.
  intros H. unfold today, iso_date.
  apply Z.div_le_mono; [unfold day_ms; lia | exact H].
Qed.

End ClockFacts.

(** ** Reward accrual *)

Section RewardFacts.

Local Open Scope Z_scope.

Implicit Types (clock : Readings) (uid : string) (isBoost : bool) (db : DB)
  (profile : Profile).

(** When both readings fall on one day, [yesterday] is the day before
    [today]. *)
Lemma yesterday_same_day clock :
  one_day clock -> yesterday (at_now clock) = today (at_date clock) - 1.
Proof. unfold one_day. intros <-. apply yesterday_today. Qed.

(** The task on an existing profile, in one equation: the update goes
    through, the insert into [rewards] is refused by the policies. *)
Lemma rewards_task_existing clock uid isBoost db profile :
  profiles db !! uid = Some profile ->
  rewards_task clock uid isBoost db =
  {| profiles :=
       <[uid := {| total_points :=
                     total_points profile + points_to_add clock isBoost profile;
                   current_streak := new_streak clock profile;
                   last_activity_date := Some (today (at_date clock)) |}]>
         (profiles db);
     conversations := conversations db;
     messages := messages db;
     rewards := rewards db;
     style_packs := style_packs db |}.
Proof.
  intros Hp. unfold rewards_task, points_to_add, new_streak. rewrite Hp.
  destruct (streak_branches (today (at_date clock)) (yesterday (at_now clock))
              profile) as [pts streak].
  destruct (negb _); reflexivity.
Qed.

Lemma date_is_true d day : date_is d day = true <-> d = Some day.
Proof.
  destruct d as [x|]; simpl; [rewrite Z.eqb_eq | ]; split; congruence.
Qed.

Lemma date_is_false d day : date_is d day = false <-> d <> Some day.
Proof.
  rewrite <- date_is_true. destruct (date_is d day); split; congruence.
Qed.

(** With both readings on one day the branches are the three cases of
    the specification. *)
Lemma streak_branches_rule clock profile :
  one_day clock ->
  streak_rule (last_activity_date profile) (today (at_date clock))
              (current_streak profile)
              (streak_branches (today (at_date clock))
                               (yesterday (at_now clock)) profile).
Proof.
  intros Hsame. unfold streak_branches. rewrite (yesterday_same_day _ Hsame).
  destruct (date_is (last_activity_date profile) (today (at_date clock)))
    eqn:Htoday; simpl.
  - apply same_day. now apply date_is_true.
  - destruct (date_is (last_activity_date profile) (today (at_date clock) - 1))
      eqn:Hyest.
    + apply consecutive_day. now apply date_is_true.
    + apply gap_or_first; now apply date_is_false.
Qed.

Lemma points_to_add_values clock isBoost profile :
  points_to_add clock isBoost profile = 1 \/
  points_to_add clock isBoost profile = 6 \/
  points_to_add clock isBoost profile = -9 \/
  points_to_add clock isBoost profile = -4.
Proof.
  unfold points_to_add, boost_deduction, streak_branches.
  destruct (isBoost && (10 <=? total_points profile)),
    (date_is (last_activity_date profile) (today (at_date clock))),
    (date_is (last_activity_date profile) (yesterday (at_now clock)));
    simpl; auto.
Qed.

Lemma reward_type_category pts : reward_type pts = ledger_category pts.
Proof.
  unfold reward_type, ledger_category.
  destruct (Z.ltb_spec 1 pts), (Z.ltb_spec 0 pts);
    repeat case_decide; try reflexivity; lia.
Qed.

(** C1, where the code departs from it.  The task reads the clock once
    for [today] and again for [yesterday].  With UTC midnight between
    the two readings (23:59:59.999 of day 20000, then 00:00:00.000 of
    day 20001) [yesterday] is day 20000, the same as [today].  A profile
    last active on day 19999, that is today minus one day, with a streak
    of 3, then takes the last branch: one point and a streak of 1, where
    the rule gives 6 points and a streak of 4; and that is what is
    stored. *)
Theorem streak_lost_at_midnight :
  today (at_date Sample.midnight) = 20000
  /\ yesterday (at_now Sample.midnight) = 20000
  /\ last_activity_date Sample.alice
     = Some (today (at_date Sample.midnight) - 1)
  /\ streak_branches (today (at_date Sample.midnight))
                     (yesterday (at_now Sample.midnight)) Sample.alice
     = (1, 1)
  /\ streak_rule (last_activity_date Sample.alice)
                 (today (at_date Sample.midnight))
                 (current_streak Sample.alice) (6, 4)
  /\ ~ streak_rule (last_activity_date Sample.alice)
                   (today (at_date Sample.midnight))
                   (current_streak Sample.alice) (1, 1)
  /\ profiles (rewards_task Sample.midnight "alice" false Sample.db) !! "alice"
     = Some {| total_points := 13; current_streak := 1;
               last_activity_date := Some 20000 |}.
Proof.
  split; [reflexivity|]. split; [reflexivity|]. split; [reflexivity|].
  split; [reflexivity|]. split; [|split; [|reflexivity]].
  - apply (consecutive_day (Some 19999) 20000 3). reflexivity.
  - intros Hrule. inversion Hrule as [H1|H1|H1 H2].
    apply H2. reflexivity.
Qed.

(** C2.  With [isBoost] set and a stored total of at least 10, the
    points of the accrual are the points of the streak branches less 10,
    so that a same-day boost accrues -9; with [isBoost] set and a stored
    total below 10 they are the points of the streak branches.  The
    stored total moves by the points so netted. *)
Theorem boost_is_netted clock uid isBoost db profile :
  profiles db !! uid = Some profile ->
  isBoost = true ->
  let earned :=
    fst (streak_branches (today (at_date clock)) (yesterday (at_now clock))
           profile) in
  (10 <= total_points profile ->
     points_to_add clock isBoost profile = earned - 10
     /\ (last_activity_date profile = Some (today (at_date clock)) ->
         points_to_add clock isBoost profile = -9))
  /\ (total_points profile < 10 ->
        points_to_add clock isBoost profile = earned)
  /\ total_points <$> (profiles (rewards_task clock uid isBoost db) !! uid)
     = Some (total_points profile + points_to_add clock isBoost profile).
Proof.
  intros Hp -> earned. subst earned.
  unfold points_to_add at 1 2 3, boost_deduction. simpl.
  split; [|split].
  - intros Hge. apply Z.leb_le in Hge. rewrite Hge. split; [reflexivity|].
    intros Hlast. unfold streak_branches.
    apply date_is_true in Hlast. rewrite Hlast. reflexivity.
  - intros Hlt. apply Z.leb_gt in Hlt. rewrite Hlt. reflexivity.
  - rewrite (rewards_task_existing _ _ _ _ _ Hp). simpl.
    rewrite lookup_insert_eq. reflexivity.
Qed.

Lemma boost_is_netted_witness :
  let clock := instant (19999 * day_ms + 7) in
  let earned :=
    fst (streak_branches (today (at_date clock)) (yesterday (at_now clock))
           Sample.alice) in
  profiles Sample.db !! "alice" = Some Sample.alice
  /\ true = true
  /\ (10 <= 12 ->
        points_to_add clock true Sample.alice = earned - 10
        /\ (Some 19999 = Some (today (at_date clock)) ->
            points_to_add clock true Sample.alice = -9))
  /\ (12 < 10 -> points_to_add clock true Sample.alice = earned)
  /\ total_points
       <$> (profiles (rewards_task clock "alice" true Sample.db) !! "alice")
     = Some (12 + points_to_add clock true Sample.alice).
Proof.
  intros clock. split; [reflexivity|]. split; [reflexivity|].
  apply (boost_is_netted clock "alice" true Sample.db Sample.alice);
    reflexivity.
Defined.

(** C3, where the code departs from it.  The task stores the total
    moved by [pointsToAdd], the computed streak and today's date, as the
    claim says; but the entry it then submits never reaches the ledger:
    the schema gives [rewards] a policy for reading only, the insert of
    the caller is refused and the task does not look at the result.  On
    the sample profile an accrual of 6 points stores 18 points and a
    streak of 4 and leaves the ledger empty. *)
Theorem accrual_entry_is_refused :
  permitted rewards_table INSERT = false
  /\ (forall clock uid isBoost db,
        rewards (rewards_task clock uid isBoost db) = rewards db)
  /\ let clock := instant (20000 * day_ms + 5) in
     let db' := rewards_task clock "alice" false Sample.db in
     points_to_add clock false Sample.alice = 6
     /\ profiles db' !! "alice" =
        Some {| total_points := 18; current_streak := 4;
                last_activity_date := Some 20000 |}
     /\ rewards db' = [].
Proof.
  split; [reflexivity|]. split.
  - intros clock uid isBoost db.
    destruct (profiles db !! uid) as [profile|] eqn:Hp.
    + now rewrite (rewards_task_existing _ _ _ _ _ Hp).
    + unfold rewards_task. now rewrite Hp.
  - repeat split; reflexivity.
Qed.

Lemma rewards_task_absent clock uid isBoost db :
  profiles db !! uid = None -> rewards_task clock uid isBoost db = db.
Proof.
  intros Hp. unfold rewards_task. rewrite Hp. reflexivity.
Qed.

(** C8.  An accrual for a user without a profile changes nothing: the
    database after the task is the database before it. *)
Theorem accrual_without_profile clock uid isBoost db :
  profiles db !! uid = None ->
  rewards_task clock uid isBoost db = db.
Proof.
  intros Hp. unfold rewards_task. rewrite Hp. reflexivity.
Qed.

Lemma accrual_without_profile_witness :
  profiles Sample.db !! "bob" = None
  /\ rewards_task (instant (20000 * day_ms + 5)) "bob" true Sample.db
     = Sample.db.
Proof.
  split; [reflexivity|].
  apply (accrual_without_profile (instant (20000 * day_ms + 5)) "bob" true
           Sample.db).
  reflexivity.
Defined.

(** C10, where the code departs from it.  The points of an accrual are
    1, 6, -9 or -4 and never 0, so the task always submits a ledger
    entry; but, by the same defect as for C3, the entry is refused: a
    boosted accrual of -4 points on the sample profile leaves the ledger
    as it was. *)
Theorem nonzero_points_leave_no_entry :
  (forall clock isBoost profile,
     (points_to_add clock isBoost profile = 1
      \/ points_to_add clock isBoost profile = 6
      \/ points_to_add clock isBoost profile = -9
      \/ points_to_add clock isBoost profile = -4)
     /\ points_to_add clock isBoost profile <> 0)
  /\ let clock := instant (20000 * day_ms + 5) in
     points_to_add clock true Sample.alice = -4
     /\ is_Some (profiles Sample.db !! "alice")
     /\ rewards (rewards_task clock "alice" true Sample.db)
        = rewards Sample.db.
Proof.
  split.
  - intros clock isBoost profile.
    pose proof (points_to_add_values clock isBoost profile) as Hv.
    split; [exact Hv | lia].
  - repeat split; try reflexivity. eexists; reflexivity.
Qed.

Lemma stored_date_after clock uid isBoost db :
  stored_date uid (rewards_task clock uid isBoost db) =
  match profiles db !! uid with
  | Some _ => Some (today (at_date clock))
  | None => None
  end.
Proof.
  unfold stored_date.
  destruct (profiles db !! uid) as [profile|] eqn:Hp.
  - rewrite (rewards_task_existing _ _ _ _ _ Hp). simpl.
    rewrite lookup_insert_eq. reflexivity.
  - rewrite rewards_task_absent by exact Hp. rewrite Hp. reflexivity.
Qed.

Lemma profile_kept clock uid isBoost db :
  is_Some (profiles (rewards_task clock uid isBoost db) !! uid)
  <-> is_Some (profiles db !! uid).
Proof.
  destruct (profiles db !! uid) as [profile|] eqn:Hp.
  - rewrite (rewards_task_existing _ _ _ _ _ Hp). simpl.
    rewrite lookup_insert_eq. split; eauto.
  - rewrite rewards_task_absent by exact Hp. rewrite Hp. reflexivity.
Qed.

Lemma nondecreasing_from_null d dates :
  nondecreasing (d :: dates) -> nondecreasing (None :: dates).
Proof.
  destruct dates as [|b rest]; simpl; [trivial|]. intros [_ H]. auto.
Qed.

(** C9.  Along a sequence of accrual calls for one user whose reference
    dates do not decrease, starting at or after the stored date, the
    stored [last_activity_date] never decreases; and every call that
    finds a profile leaves that call's date in it. *)
Theorem last_activity_date_monotone uid calls db :
  nondecreasing (stored_date uid db :: map reference_date calls) ->
  nondecreasing
    (stored_date uid db :: map (stored_date uid) (accrual_calls uid calls db))
  /\ Forall2 (fun call db' =>
                is_Some (profiles db' !! uid) ->
                stored_date uid db' = reference_date call)
             calls (accrual_calls uid calls db).
Proof.
  revert db. induction calls as [|[clock isBoost] rest IH]; intros db Hnd.
  - simpl. split; [trivial | constructor].
  - cbn [accrual_calls map]. cbn [map] in Hnd.
    destruct Hnd as [Hfirst Hrest]. fold nondecreasing in Hrest.
    set (db' := rewards_task clock uid isBoost db).
    assert (Hstored : stored_date uid db' =
                      match profiles db !! uid with
                      | Some _ => Some (today (at_date clock))
                      | None => None
                      end)
      by apply stored_date_after.
    assert (Hnd' : nondecreasing (stored_date uid db' :: map reference_date rest)).
    { rewrite Hstored. destruct (profiles db !! uid);
        [exact Hrest | exact (nondecreasing_from_null _ _ Hrest)]. }
    destruct (IH db' Hnd') as [IHa IHb].
    split.
    + split; [|exact IHa]. rewrite Hstored.
      destruct (profiles db !! uid) eqn:Hp; [exact Hfirst|].
      unfold stored_date. rewrite Hp. exact I.
    + constructor; [|exact IHb].
      intros Hsome. apply profile_kept in Hsome.
      rewrite Hstored. destruct Hsome as [profile ->]. reflexivity.
Qed.

Lemma last_activity_date_monotone_witness :
  let calls := [ (instant (19999 * day_ms + 100), false);
                 ({| at_date := 20000 * day_ms + 5;
                     at_now := 20000 * day_ms + 6 |}, true);
                 (instant (20000 * day_ms + 9), false);
                 (Sample.midnight, false);
                 (instant (20003 * day_ms), false) ] in
  nondecreasing (stored_date "alice" Sample.db :: map reference_date calls)
  /\ nondecreasing
       (stored_date "alice" Sample.db
          :: map (stored_date "alice") (accrual_calls "alice" calls Sample.db))
  /\ Forall2 (fun call db' =>
                is_Some (profiles db' !! "alice") ->
                stored_date "alice" db' = reference_date call)
             calls (accrual_calls "alice" calls Sample.db).
Proof.
  intros calls.
  assert (Hdates : nondecreasing
                     (stored_date "alice" Sample.db :: map reference_date calls))
    by (vm_compute; repeat split; intros H; discriminate H).
  split; [exact Hdates|].
  apply (last_activity_date_monotone "alice" calls Sample.db Hdates).
Defined.

End RewardFacts.

(** ** Text *)

Section TextFacts.

Local Open Scope nat_scope.

Implicit Types (s w : string) (input pre post mid : list ascii) (c d : ascii).

Lemma substring_take n s :
  substring 0 n s = string_of_list_ascii (take n (list_ascii_of_string s)).
Proof.
  revert s. induction n as [|n IH]; intros [|c s]; simpl; try reflexivity.
  now rewrite IH.
Qed.

Lemma length_list_ascii s : length (list_ascii_of_string s) = String.length s.
Proof. induction s as [|c s IH]; simpl; congruence. Qed.

(** [s.slice(0, n)] is the first [n] characters of [s]. *)
Lemma slice_first_chars s n :
  slice s 0 (Z.of_nat n) = first_chars n s.
Proof.
  unfold slice, first_chars.
  change (0 <? 0)%Z with false. cbv iota.
  destruct (Z.ltb_spec (Z.of_nat n) 0) as [Hneg|_]; [lia|].
  rewrite <- length_list_ascii.
  set (len := length (list_ascii_of_string s)).
  replace (Z.to_nat (Z.min 0 (Z.of_nat len))) with 0 by lia.
  replace (Z.to_nat (Z.max (Z.min (Z.of_nat n) (Z.of_nat len)
                            - Z.min 0 (Z.of_nat len)) 0))
    with (Nat.min n len) by lia.
  rewrite substring_take. f_equal.
  destruct (Nat.le_ge_cases n len) as [Hle|Hge].
  - now rewrite Nat.min_l.
  - rewrite Nat.min_r by exact Hge. subst len. now rewrite !take_ge by lia.
Qed.

Lemma toLowerCase_chars s :
  list_ascii_of_string (toLowerCase s) = map lower_char (list_ascii_of_string s).
Proof. induction s as [|c s IH]; simpl; congruence. Qed.

Lemma lower_char_not_upper c : in_range 65 90 (lower_char c) = false.
Proof. destruct c as [[] [] [] [] [] [] [] []]; reflexivity. Qed.

Lemma toLowerCase_no_upper s :
  Forall (fun c => in_range 65 90 c = false)
         (list_ascii_of_string (toLowerCase s)).
Proof.
  rewrite toLowerCase_chars. apply Forall_map, Forall_forall.
  intros c _. apply lower_char_not_upper.
Qed.

Lemma in_range_spec lo hi c :
  in_range lo hi c = true <-> lo <= nat_of_ascii c <= hi.
Proof.
  unfold in_range. rewrite andb_true_iff, !Nat.leb_le. reflexivity.
Qed.

(** Under the flag [i] a lower-case letter of the pattern is matched, in
    an input without capitals, by itself only. *)
Lemma canonicalize_lower c d :
  in_range 97 122 c = true -> in_range 65 90 d = false ->
  canonicalize true c = canonicalize true d -> c = d.
Proof.
  intros Hc Hd. unfold canonicalize. rewrite Hc. simpl.
  apply in_range_spec in Hc.
  pose proof (nat_ascii_bounded d) as Hbd.
  destruct (in_range 97 122 d) eqn:Hd'.
  - apply in_range_spec in Hd'. intros Heq.
    apply (f_equal nat_of_ascii) in Heq.
    rewrite !nat_ascii_embedding in Heq by lia.
    rewrite <- (ascii_nat_embedding c), <- (ascii_nat_embedding d).
    f_equal. lia.
  - intros Heq. apply (f_equal nat_of_ascii) in Heq.
    rewrite nat_ascii_embedding in Heq by lia.
    assert (in_range 65 90 d = true) as Hup
      by (apply in_range_spec; lia).
    congruence.
Qed.

(** A literal matches at [i] exactly when the input from [i] on starts
    with the literal up to canonicalization, and the rest of the pattern
    matches behind it. *)
Lemma matcher_literal ic (l : list ascii) input i k :
  matcher ic (literal l) input i k = true <->
  exists mid post,
    drop i input = mid ++ post
    /\ Forall2 (fun c d => canonicalize ic c = canonicalize ic d) l mid
    /\ k (i + length l) = true.
Proof.
  revert i. induction l as [|c l IH]; intros i; cbn [literal matcher length].
  - rewrite Nat.add_0_r. split.
    + intros Hk. exists [], (drop i input). repeat split; auto.
    + intros (mid & post & _ & _ & Hk). exact Hk.
  - destruct (input !! i) as [d|] eqn:Hi.
    + rewrite andb_true_iff, IH. split.
      * intros [Hcd (mid & post & Hdrop & Hall & Hk)].
        apply Ascii.eqb_eq in Hcd.
        exists (d :: mid), post. split; [|split].
        -- rewrite (drop_S _ _ _ Hi), Hdrop. reflexivity.
        -- constructor; assumption.
        -- rewrite <- Hk. f_equal. lia.
      * intros (mid & post & Hdrop & Hall & Hk).
        rewrite (drop_S _ _ _ Hi) in Hdrop.
        inversion Hall as [|c' d' l' mid' Hcd Hall' E1 E2]; subst.
        simpl in Hdrop. injection Hdrop as -> Hdrop.
        split; [now apply Ascii.eqb_eq|].
        exists mid', post. repeat split; auto.
        rewrite <- Hk. f_equal. lia.
    + split; [discriminate|].
      intros (mid & post & Hdrop & Hall & _).
      apply lookup_ge_None in Hi. rewrite drop_ge in Hdrop by exact Hi.
      inversion Hall; subst. discriminate Hdrop.
Qed.

(** The position after [pre] is a word boundary, when a word character
    follows, exactly when [pre] does not end in a word character. *)
Lemma boundary_before pre c rest :
  isWordChar c = true ->
  is_word_boundary (pre ++ c :: rest) (length pre) = true
  <-> not_word (last pre).
Proof.
  intros Hc. unfold is_word_boundary, word_at at 2.
  rewrite list_lookup_middle by reflexivity. rewrite Hc, xorb_true_r.
  destruct (last pre) as [x|] eqn:Hlast.
  - apply last_Some in Hlast as [pre' ->].
    rewrite length_app, Nat.add_1_r. unfold word_at.
    rewrite <- app_assoc. cbn [app].
    rewrite list_lookup_middle by reflexivity.
    simpl. apply negb_true_iff.
  - apply last_None in Hlast as ->. simpl. tauto.
Qed.

(** The position after a word character is a word boundary exactly when
    what follows does not start with a word character. *)
Lemma boundary_after pre c post :
  isWordChar c = true ->
  is_word_boundary ((pre ++ [c]) ++ post) (length (pre ++ [c])) = true
  <-> not_word (head post).
Proof.
  intros Hc. unfold is_word_boundary.
  rewrite length_app, Nat.add_1_r. unfold word_at.
  rewrite <- (app_assoc pre [c] post) at 1. cbn [app].
  rewrite list_lookup_middle by reflexivity. rewrite Hc, xorb_true_l.
  rewrite lookup_app_r by (rewrite length_app; simpl; lia).
  rewrite length_app, Nat.add_1_r, Nat.sub_diag.
  destruct post as [|x post]; simpl; [tauto|]. apply negb_true_iff.
Qed.

Lemma lower_is_word c : in_range 97 122 c = true -> isWordChar c = true.
Proof. intros H. unfold isWordChar. now rewrite H. Qed.

Lemma canonical_match_eq (l mid : list ascii) :
  Forall (fun c => in_range 97 122 c = true) l ->
  Forall (fun d => in_range 65 90 d = false) mid ->
  Forall2 (fun c d => canonicalize true c = canonicalize true d) l mid ->
  l = mid.
Proof.
  intros Hl Hmid Hall. induction Hall as [|c d l mid Hcd Hall IH].
  - reflexivity.
  - inversion Hl; inversion Hmid; subst. f_equal.
    + now apply canonicalize_lower.
    + now apply IH.
Qed.

(** Between two assertions [\b], a plain word matches at [i] exactly
    when it stands there as a whole word. *)
Lemma whole_word_at (l : list ascii) input i :
  plain_word l ->
  Forall (fun d => in_range 65 90 d = false) input ->
  is_word_boundary input i
  && matcher true (literal l) input i (fun j => is_word_boundary input j && true)
  = true
  <-> exists pre post,
        input = pre ++ l ++ post /\ length pre = i
        /\ not_word (last pre) /\ not_word (head post).
Proof.
  intros [Hne Hlow] Hinput.
  assert (Hfirst : exists c rest, l = c :: rest /\ isWordChar c = true).
  { destruct l as [|c rest]; [congruence|]. inversion Hlow; subst.
    eauto using lower_is_word. }
  assert (Hlast : exists front c, l = front ++ [c] /\ isWordChar c = true).
  { destruct (last l) as [c|] eqn:E.
    - apply last_Some in E as [front ->].
      apply Forall_app in Hlow as [_ Hc]. inversion Hc; subst.
      eauto using lower_is_word.
    - apply last_None in E. congruence. }
  destruct Hfirst as (c1 & rest & Hl1 & Hc1).
  destruct Hlast as (front & c2 & Hl2 & Hc2).
  rewrite andb_true_iff, matcher_literal. split.
  - intros (Hb & mid & post & Hdrop & Hall & Hk).
    rewrite andb_true_r in Hk.
    assert (l = mid) as <-.
    { apply canonical_match_eq; auto.
      assert (Forall (fun d => in_range 65 90 d = false) (drop i input)) as Hd
        by now apply Forall_drop.
      rewrite Hdrop in Hd. now apply Forall_app in Hd as [Hd _]. }
    assert (Hi : i < length input).
    { destruct (Nat.lt_ge_cases i (length input)) as [|Hge]; [assumption|].
      rewrite drop_ge in Hdrop by exact Hge. subst l. discriminate Hdrop. }
    assert (Hin : input = take i input ++ l ++ post)
      by (rewrite <- Hdrop; symmetry; apply take_drop).
    assert (Hlen : length (take i input) = i)
      by (rewrite length_take; lia).
    exists (take i input), post. split; [exact Hin|]. split; [exact Hlen|].
    split.
    + rewrite Hin, <- Hlen in Hb at 1. rewrite Hl1 in Hb at 1.
      simpl in Hb. revert Hb. rewrite Hlen at 1.
      rewrite <- Hlen at 2. now apply boundary_before.
    + rewrite Hin in Hk. rewrite <- Hlen in Hk at 2.
      rewrite <- length_app, Hl2 in Hk.
      rewrite !app_assoc in Hk. rewrite <- (app_assoc _ front [c2]) in Hk.
      rewrite (app_assoc _ front [c2]) in Hk.
      now apply boundary_after in Hk.
  - intros (pre & post & -> & <- & Hpre & Hpost). split.
    + rewrite Hl1. simpl. now apply boundary_before.
    + exists l, post. split; [|split].
      * now rewrite drop_app_length.
      * clear. induction l; constructor; auto.
      * rewrite andb_true_r, <- length_app, Hl2.
        rewrite !app_assoc.
        now apply boundary_after.
Qed.

Lemma banned_words_plain w :
  In w banned_words -> plain_word (list_ascii_of_string w).
Proof.
  intros Hw. simpl in Hw.
  repeat (destruct Hw as [<-|Hw];
          [split; [discriminate | repeat constructor]|]).
  contradiction.
Qed.

(** The content screen flags a message exactly when its lower case
    contains one of the four words as a whole word. *)
Lemma isHarmful_whole_word message :
  isHarmful message = true <-> contains_banned_word message.
Proof.
  unfold isHarmful, test, contains_banned_word, whole_word.
  pose proof (toLowerCase_no_upper message) as Hup.
  set (input := list_ascii_of_string (toLowerCase message)) in *.
  rewrite existsb_exists. split.
  - intros (i & _ & Hm). unfold harmful_pattern in Hm. cbn [matcher] in Hm.
    apply andb_true_iff in Hm as [Hb Hm].
    assert (Hcase : exists w, In w banned_words
              /\ matcher true (word w) input i
                   (fun j => is_word_boundary input j && true) = true).
    { repeat (apply orb_true_iff in Hm as [Hm|Hm];
              [eexists; split; [|exact Hm]; simpl; tauto|]).
      eexists; split; [|exact Hm]; simpl; tauto. }
    destruct Hcase as (w & Hw & Hlit). exists w. split; [exact Hw|].
    pose proof (whole_word_at _ input i (banned_words_plain w Hw) Hup) as [Hto _].
    destruct Hto as (pre & post & Heq & _ & Hpre & Hpost).
    + apply andb_true_iff. split; [exact Hb | exact Hlit].
    + exists pre, post. auto.
  - intros (w & Hw & pre & post & Heq & Hpre & Hpost).
    exists (length pre). split.
    + apply in_seq. rewrite Heq, length_app. lia.
    + pose proof (whole_word_at _ input (length pre)
                    (banned_words_plain w Hw) Hup) as [_ Hfrom].
      assert (Hok : is_word_boundary input (length pre)
                    && matcher true (word w) input (length pre)
                         (fun j => is_word_boundary input j && true) = true)
        by (apply Hfrom; exists pre, post; auto).
      apply andb_true_iff in Hok as [Hb Hlit].
      unfold harmful_pattern. cbn [matcher]. rewrite Hb. cbn [andb].
      simpl in Hw.
      repeat (destruct Hw as [<-|Hw];
              [rewrite Hlit; rewrite ?orb_true_r; reflexivity|]).
      contradiction.
Qed.

End TextFacts.

(** ** The turn handler *)

Section HandlerFacts.

Local Open Scope Z_scope.

Implicit Types (env : Env) (uid : string) (req : ChatRequest) (db : DB).

Lemma rewards_task_messages clock uid isBoost db :
  messages (rewards_task clock uid isBoost db) = messages db.
Proof.
  unfold rewards_task. destruct (profiles db !! uid); [|reflexivity].
  destruct (streak_branches _ _ _). destruct (negb _); reflexivity.
Qed.

Lemma rewards_task_conversations clock uid isBoost db :
  conversations (rewards_task clock uid isBoost db) = conversations db.
Proof.
  unfold rewards_task. destruct (profiles db !! uid); [|reflexivity].
  destruct (streak_branches _ _ _). destruct (negb _); reflexivity.
Qed.

(** Resolving the conversation touches the table of conversations only. *)
Lemma resolve_conversation_frame env uid req db cid db1 :
  resolve_conversation env uid req db = inr (cid, db1) ->
  messages db1 = messages db /\ profiles db1 = profiles db
  /\ rewards db1 = rewards db /\ style_packs db1 = style_packs db.
Proof.
  unfold resolve_conversation. intros H.
  destruct (conversationId req) as [c|];
    [destruct (truthy (Some c))|];
    try destruct (newConversation env);
    inversion H; subst; simpl; auto.
Qed.

(** A request without a conversation id opens a conversation. *)
Lemma resolve_conversation_new env uid req db newId :
  truthy (conversationId req) = false ->
  newConversation env = Some newId ->
  resolve_conversation env uid req db =
  inr (newId,
       insert_conversation
         {| conv_id := newId; conv_user_id := uid;
            title := conversation_title (message req) |} db).
Proof.
  unfold resolve_conversation. intros Hc Hn.
  destruct (conversationId req) as [c|]; [rewrite Hc|]; now rewrite Hn.
Qed.

(** What a turn that answers 200 has done. *)
Lemma turn_ok env uid req db r db' :
  turn env uid req db = (Ok200 r, db') ->
  exists cid db1,
    resolve_conversation env uid req db = inr (cid, db1)
    /\ responseConversationId r = cid
    /\ pointsAwarded r = negb (isHarmful (message req))
    /\ let db2 :=
         if userMsgError env then db1
         else insert_message
                {| conversation_id := cid; role := user;
                   content := message req;
                   tokens_used := 0; response_time_ms := 0 |} db1 in
       let db3 :=
         if aiMsgError env then db2
         else insert_message
                {| conversation_id := cid; role := assistant;
                   content := response r;
                   tokens_used := tokensUsed r;
                   response_time_ms := responseTime r |} db2 in
       db' = if pointsAwarded r
             then rewards_task (rewardsTime env) uid (truthy_flag (isBoost req)) db3
             else db3.
Proof.
  unfold turn. intros H.
  destruct (resolve_conversation env uid req db) as [e|[cid db1]];
    [discriminate|].
  destruct (load_history env cid db1) as [history|]; [|discriminate].
  destruct (negb (ok _)); [discriminate|].
  destruct (json _) as [data|]; [|discriminate].
  destruct (candidate_text data) as [aiResponse|]; [|discriminate].
  inversion H; subst; clear H. exists cid, db1. simpl.
  repeat split.
Qed.

(** The conversations after a turn, and the id that a 200 reports. *)
Lemma turn_conversation env uid req db cid db1 :
  resolve_conversation env uid req db = inr (cid, db1) ->
  conversations (snd (turn env uid req db)) = conversations db1
  /\ forall r, fst (turn env uid req db) = Ok200 r ->
               responseConversationId r = cid.
Proof.
  intros Hres. unfold turn. rewrite Hres.
  destruct (load_history env cid db1) as [history|];
    [|split; [reflexivity | discriminate]].
  destruct (negb (ok _)); [split; [reflexivity | discriminate]|].
  destruct (json _) as [data|]; [|split; [reflexivity | discriminate]].
  destruct (candidate_text data) as [aiResponse|];
    [|split; [reflexivity | discriminate]].
  cbn [fst snd]. split.
  - destruct (negb (isHarmful (message req)));
      rewrite ?rewards_task_conversations;
      destruct (userMsgError env), (aiMsgError env); reflexivity.
  - intros r Hr. inversion Hr. reflexivity.
Qed.

Lemma rewards_task_frame_flagged env uid req db r db' :
  turn env uid req db = (Ok200 r, db') ->
  pointsAwarded r = false ->
  profiles db' = profiles db /\ rewards db' = rewards db.
Proof.
  intros Hturn Hflag.
  destruct (turn_ok _ _ _ _ _ _ Hturn) as (cid & db1 & Hres & _ & _ & Hdb).
  cbv zeta in Hdb. rewrite Hflag in Hdb. subst db'.
  destruct (resolve_conversation_frame _ _ _ _ _ _ Hres) as (_ & Hp & Hr & _).
  destruct (userMsgError env), (aiMsgError env); simpl; auto.
Qed.

(** C4, as the code has it.  A turn that is answered screens the
    message for the banned words as whole words of its lower case: when
    one stands there, not preceded and not followed by a word character,
    the answer reports [pointsAwarded = false], no profile is updated
    and no ledger entry is written, and the two message rows are written
    as for any turn (when the store accepts them); when none does, the
    answer reports [pointsAwarded = true]. *)
Theorem content_screen_whole_words env uid req db r db' :
  turn env uid req db = (Ok200 r, db') ->
  (contains_banned_word (message req) ->
     pointsAwarded r = false
     /\ profiles db' = profiles db
     /\ rewards db' = rewards db
     /\ (userMsgError env = false -> aiMsgError env = false ->
         messages db' =
         messages db
         ++ [ {| conversation_id := responseConversationId r; role := user;
                 content := message req;
                 tokens_used := 0; response_time_ms := 0 |};
              {| conversation_id := responseConversationId r; role := assistant;
                 content := response r;
                 tokens_used := tokensUsed r;
                 response_time_ms := responseTime r |} ]))
  /\ (~ contains_banned_word (message req) -> pointsAwarded r = true).
Proof.
  intros Hturn.
  destruct (turn_ok _ _ _ _ _ _ Hturn) as (cid & db1 & Hres & Hcid & Hpts & Hdb).
  split.
  - intros Hword. apply isHarmful_whole_word in Hword.
    assert (Hflag : pointsAwarded r = false) by (now rewrite Hpts, Hword).
    destruct (rewards_task_frame_flagged _ _ _ _ _ _ Hturn Hflag) as [Hp Hr].
    repeat split; auto.
    intros Hu Ha. cbv zeta in Hdb. rewrite Hflag, Hu, Ha in Hdb. subst db'.
    destruct (resolve_conversation_frame _ _ _ _ _ _ Hres) as (Hm & _).
    simpl. rewrite Hm, Hcid, <- app_assoc. reflexivity.
  - intros Hnone. rewrite Hpts.
    destruct (isHarmful (message req)) eqn:Hh; [|reflexivity].
    apply isHarmful_whole_word in Hh. contradiction.
Qed.

Lemma content_screen_whole_words_witness :
  let req := Sample.request "so much HATE, really" in
  let r := {| response := "hi"; responseConversationId := "c1";
              tokensUsed := 7; responseTime := 250;
              pointsAwarded := false |} in
  let db' := snd (turn Sample.env "alice" req Sample.db) in
  turn Sample.env "alice" req Sample.db = (Ok200 r, db')
  /\ contains_banned_word (message req)
  /\ pointsAwarded r = false
  /\ profiles db' = profiles Sample.db
  /\ rewards db' = rewards Sample.db
  /\ (userMsgError Sample.env = false -> aiMsgError Sample.env = false ->
      messages db' =
      messages Sample.db
      ++ [ {| conversation_id := "c1"; role := user;
              content := message req;
              tokens_used := 0; response_time_ms := 0 |};
           {| conversation_id := "c1"; role := assistant;
              content := "hi"; tokens_used := 7;
              response_time_ms := 250 |} ]).
Proof.
  intros req r db'.
  assert (Hturn : turn Sample.env "alice" req Sample.db = (Ok200 r, db'))
    by reflexivity.
  assert (Hword : contains_banned_word (message req))
    by (apply isHarmful_whole_word; reflexivity).
  split; [exact Hturn|]. split; [exact Hword|].
  exact (proj1 (content_screen_whole_words Sample.env "alice" req Sample.db
                  r db' Hturn) Hword).
Defined.

(** C4, as the specification words it, fails: "hateful" contains the
    banned word "hate" as a substring, and the turn still reports
    [pointsAwarded = true] and runs the accrual, which credits the
    caller's profile. *)
Lemma content_screen_substring_counterexample :
  contains_banned_substring "hateful" = true
  /\ fst (turn Sample.env "alice" (Sample.request "hateful") Sample.db)
     = Ok200 {| response := "hi"; responseConversationId := "c1";
                tokensUsed := 7; responseTime := 250;
                pointsAwarded := true |}
  /\ profiles (snd (turn Sample.env "alice" (Sample.request "hateful")
                      Sample.db)) !! "alice"
     = Some {| total_points := 18; current_streak := 4;
               last_activity_date := Some 20000 |}.
Proof. repeat split; reflexivity. Qed.

(** The history that is loaded is the first ten rows of the
    conversation; it is the most recent ten when the conversation has
    at most ten rows. *)
Lemma select_history_oldest cid db :
  select_history cid db = take 10 (conversation_messages cid db).
Proof. reflexivity. Qed.

Lemma select_history_short cid db :
  (length (conversation_messages cid db) <= 10)%nat ->
  select_history cid db = most_recent 10 (conversation_messages cid db).
Proof.
  intros Hlen. rewrite select_history_oldest. unfold most_recent.
  rewrite take_ge by exact Hlen.
  replace (length (conversation_messages cid db) - 10)%nat with 0%nat by lia.
  reflexivity.
Qed.

(** The prompt is the system framing, the acknowledgment, the history
    in its order, and the new message last. *)
Lemma build_contents_order systemPrompt history message :
  build_contents systemPrompt history message =
  {| turn_role := role_user; turn_text := systemPrompt |}
  :: {| turn_role := role_model; turn_text := acknowledgment |}
  :: map history_turn history
  ++ [ {| turn_role := role_user; turn_text := message |} ].
Proof. reflexivity. Qed.

(** C5.  On a conversation of eleven stored messages the handler loads
    the ten oldest, [m1] to [m10], where the ten most recent are [m2] to
    [m11]: the prompt it sends is in the stated order but carries [m1]
    and lacks [m11]. *)
Theorem history_keeps_oldest_ten :
  load_history Sample.env "c1" Sample.long_db =
    Some [ Sample.row user "m1"; Sample.row assistant "m2";
           Sample.row user "m3"; Sample.row assistant "m4";
           Sample.row user "m5"; Sample.row assistant "m6";
           Sample.row user "m7"; Sample.row assistant "m8";
           Sample.row user "m9"; Sample.row assistant "m10" ]
  /\ most_recent 10 (conversation_messages "c1" Sample.long_db) =
       [ Sample.row assistant "m2"; Sample.row user "m3";
         Sample.row assistant "m4"; Sample.row user "m5";
         Sample.row assistant "m6"; Sample.row user "m7";
         Sample.row assistant "m8"; Sample.row user "m9";
         Sample.row assistant "m10"; Sample.row user "m11" ]
  /\ map turn_text
         (build_contents (system_prompt Sample.follow_up Sample.long_db)
            (select_history "c1" Sample.long_db)
            (message Sample.follow_up)) =
       [ default_prompt; acknowledgment;
         "m1"; "m2"; "m3"; "m4"; "m5"; "m6"; "m7"; "m8"; "m9"; "m10";
         "m12" ]%string
  /\ select_history "c1" Sample.long_db
     <> most_recent 10 (conversation_messages "c1" Sample.long_db).
Proof. repeat split; try reflexivity. discriminate. Qed.

(** C6.  A turn without a conversation id, when the store returns the
    inserted row, adds one conversation: owned by the caller, titled
    with the first 50 characters of the message followed by "..."
    exactly when the message is longer than 50; and a turn that is
    answered reports the id of that row. *)
Theorem new_conversation_title env uid req db newId :
  truthy (conversationId req) = false ->
  newConversation env = Some newId ->
  conversations (snd (turn env uid req db)) =
    conversations db
    ++ [ {| conv_id := newId; conv_user_id := uid;
            title :=
              first_chars 50 (message req)
              +:+ (if decide (50 < String.length (message req))%nat
                   then "..." else "") |} ]
  /\ forall r, fst (turn env uid req db) = Ok200 r ->
               responseConversationId r = newId.
Proof.
  intros Habsent Hnew.
  pose proof (resolve_conversation_new env uid req db newId Habsent Hnew) as Hres.
  destruct (turn_conversation _ _ _ _ _ _ Hres) as [Hconv Hid].
  split; [|exact Hid]. rewrite Hconv. simpl. do 3 f_equal.
  unfold conversation_title.
  rewrite <- (slice_first_chars (message req) 50).
  change (Z.of_nat 50) with 50. f_equal.
  destruct (Nat.ltb_spec 50 (String.length (message req)));
    case_decide; try reflexivity; lia.
Qed.

Lemma new_conversation_title_witness :
  let req :=
    Sample.request
      "Tell me a long story about a lighthouse keeper and the sea" in
  truthy (conversationId req) = false
  /\ newConversation Sample.env = Some "c1"
  /\ conversations (snd (turn Sample.env "alice" req Sample.db)) =
       conversations Sample.db
       ++ [ {| conv_id := "c1"; conv_user_id := "alice";
               title :=
                 first_chars 50 (message req)
                 +:+ (if decide (50 < String.length (message req))%nat
                      then "..." else "") |} ]
  /\ forall r, fst (turn Sample.env "alice" req Sample.db) = Ok200 r ->
               responseConversationId r = "c1".
Proof.
  intros req. split; [reflexivity|]. split; [reflexivity|].
  apply (new_conversation_title Sample.env "alice" req Sample.db "c1");
    reflexivity.
Defined.

(** C7.  When the handler has reached the completion call and the
    service answers with a non-success status, or with a body that does
    not carry the expected text, the request fails with an error of the
    completion service, and the turn has written no message row, updated
    no profile and appended no ledger entry. *)
Theorem upstream_failure_writes_nothing env uid req db cid db1 history :
  resolve_conversation env uid req db = inr (cid, db1) ->
  load_history env cid db1 = Some history ->
  let reply :=
    gemini env (build_contents (system_prompt req db1) history (message req)) in
  (ok reply = false
   \/ json reply = None
   \/ exists data, json reply = Some data /\ candidate_text data = None) ->
  exists e,
    turn env uid req db = (Error500 e, db1)
    /\ UpstreamError e = true
    /\ messages db1 = messages db
    /\ profiles db1 = profiles db
    /\ rewards db1 = rewards db.
Proof.
  intros Hres Hhist reply Hbad.
  destruct (resolve_conversation_frame _ _ _ _ _ _ Hres) as (Hm & Hp & Hr & _).
  unfold turn. rewrite Hres, Hhist. fold reply.
  destruct (ok reply) eqn:Hok; simpl.
  - destruct Hbad as [Hbad|[Hjson|(data & Hjson & Htext)]].
    + discriminate.
    + rewrite Hjson. eexists. repeat split; auto.
    + rewrite Hjson, Htext. eexists. repeat split; auto.
  - eexists. repeat split; auto.
Qed.

Lemma upstream_failure_writes_nothing_witness :
  let req := Sample.request "hello" in
  let db1 :=
    insert_conversation
      {| conv_id := "c1"; conv_user_id := "alice"; title := "hello" |}
      Sample.db in
  let reply :=
    gemini Sample.failing_env
      (build_contents (system_prompt req db1) [] (message req)) in
  resolve_conversation Sample.failing_env "alice" req Sample.db
    = inr ("c1", db1)
  /\ load_history Sample.failing_env "c1" db1 = Some []
  /\ ok reply = false
  /\ exists e,
       turn Sample.failing_env "alice" req Sample.db = (Error500 e, db1)
       /\ UpstreamError e = true
       /\ messages db1 = messages Sample.db
       /\ profiles db1 = profiles Sample.db
       /\ rewards db1 = rewards Sample.db.
Proof.
  intros req db1 reply.
  split; [reflexivity|]. split; [reflexivity|]. split; [reflexivity|].
  apply (upstream_failure_writes_nothing Sample.failing_env "alice"
           req Sample.db "c1" db1 []).
  - reflexivity.
  - reflexivity.
  - left. reflexivity.
Defined.

(** A request that passes the configuration and identity checks is
    served by [turn] for the authenticated user. *)
Lemma serve_authenticated env (request : Request) db authHeader uid chat :
  String.eqb (method request) "OPTIONS" = false ->
  truthy (GEMINI_API_KEY env) = true ->
  truthy (SUPABASE_URL env) = true ->
  truthy (SUPABASE_ANON_KEY env) = true ->
  authorization request = Some authHeader ->
  truthy (Some authHeader) = true ->
  getUser env authHeader = inr (Some uid) ->
  body request = Some chat ->
  serve env request db =
  (Answer (fst (turn env uid chat db)), snd (turn env uid chat db)).
Proof.
  intros Hm Hk Hu Ha Hauth Hh Huser Hbody. unfold serve.
  rewrite Hm, Hk, Hu, Ha, Hauth, Hh, Huser, Hbody. simpl.
  destruct (turn env uid chat db). reflexivity.
Qed.

End HandlerFacts.

(** * Further properties of the code *)

(** ** Accrual over time *)

Section AccrualRuns.

Local Open Scope Z_scope.

Implicit Types (clock : Readings) (uid : string) (isBoost : bool) (db : DB)
  (profile : Profile) (calls : list (Readings * bool)).

Lemma points_to_add_nonzero clock isBoost profile :
  points_to_add clock isBoost profile <> 0.
Proof.
  pose proof (points_to_add_values clock isBoost profile). lia.
Qed.

(** The task on an existing profile stores the accrued profile and
    leaves the ledger as it was. *)
Lemma rewards_task_stores clock uid isBoost db profile :
  profiles db !! uid = Some profile ->
  rewards (rewards_task clock uid isBoost db) = rewards db
  /\ profiles (rewards_task clock uid isBoost db) !! uid =
     Some (accrued clock isBoost profile).
Proof.
  intros Hp. rewrite (rewards_task_existing _ _ _ _ _ Hp). simpl.
  split; [reflexivity | apply lookup_insert_eq].
Qed.

(** X1.  Along any sequence of accrual calls for a user with a profile,
    the stored total moves by the sum of the points of the calls, none
    of which is zero, while the ledger stays exactly as it was: the
    ledger does not account for the total. *)
Theorem ledger_misses_accruals uid calls db profile :
  profiles db !! uid = Some profile ->
  exists profile',
    profiles (run_calls uid calls db) !! uid = Some profile'
    /\ total_points profile' =
       total_points profile + sum_points (run_points calls profile)
    /\ Forall (fun amount => amount <> 0) (run_points calls profile)
    /\ length (run_points calls profile) = length calls
    /\ rewards (run_calls uid calls db) = rewards db.
Proof.
  revert db profile. induction calls as [|[clock isBoost] rest IH];
    intros db profile Hp.
  - exists profile. simpl. repeat split; auto. lia.
  - destruct (rewards_task_stores clock uid isBoost db profile Hp) as [Hr Hp1].
    destruct (IH _ _ Hp1) as (profile' & Hp' & Htot & Hnz & Hlen & Hrs).
    exists profile'. unfold run_calls in *. cbn [fold_left fst snd run_points].
    split; [exact Hp'|]. split; [|split; [|split]].
    + rewrite Htot. simpl. lia.
    + constructor; [apply points_to_add_nonzero | exact Hnz].
    + simpl. now rewrite Hlen.
    + now rewrite Hrs, Hr.
Qed.

Lemma ledger_misses_accruals_witness :
  profiles Sample.db !! "alice" = Some Sample.alice
  /\ exists profile',
       profiles (run_calls "alice" Fixtures.streak_week Sample.db) !! "alice"
         = Some profile'
       /\ total_points profile' =
          12 + sum_points (run_points Fixtures.streak_week Sample.alice)
       /\ Forall (fun amount => amount <> 0)
                 (run_points Fixtures.streak_week Sample.alice)
       /\ length (run_points Fixtures.streak_week Sample.alice)
          = length Fixtures.streak_week
       /\ rewards (run_calls "alice" Fixtures.streak_week Sample.db)
          = rewards Sample.db.
Proof.
  split; [reflexivity|].
  apply (ledger_misses_accruals "alice" Fixtures.streak_week Sample.db
           Sample.alice).
  reflexivity.
Defined.

Lemma accrual_total_floor clock isBoost profile :
  0 <= total_points profile ->
  1 <= total_points profile + points_to_add clock isBoost profile.
Proof.
  intros Hnn. unfold points_to_add, boost_deduction, streak_branches.
  destruct (Z.leb_spec 10 (total_points profile));
    destruct isBoost,
      (date_is (last_activity_date profile) (today (at_date clock))),
      (date_is (last_activity_date profile) (yesterday (at_now clock)));
    simpl; lia.
Qed.

(** X2.  An accrual on a total that is not negative leaves a total of at
    least 1, and never takes more than 9 points away: the boost is only
    deducted from a total of 10 or more. *)
Theorem total_points_floor clock uid isBoost db profile :
  profiles db !! uid = Some profile ->
  0 <= total_points profile ->
  exists profile',
    profiles (rewards_task clock uid isBoost db) !! uid = Some profile'
    /\ 1 <= total_points profile'
    /\ total_points profile - 9 <= total_points profile'.
Proof.
  intros Hp Hnn.
  destruct (rewards_task_stores clock uid isBoost db profile Hp) as [_ Hp'].
  eexists. split; [exact Hp'|]. simpl.
  unfold points_to_add, boost_deduction, streak_branches.
  destruct (Z.leb_spec 10 (total_points profile));
    destruct isBoost,
      (date_is (last_activity_date profile) (today (at_date clock))),
      (date_is (last_activity_date profile) (yesterday (at_now clock)));
    simpl; lia.
Qed.

Lemma total_points_floor_witness :
  profiles Sample.db !! "alice" = Some Sample.alice
  /\ 0 <= 12
  /\ exists profile',
       profiles (rewards_task (instant (19999 * day_ms)) "alice" true Sample.db)
         !! "alice" = Some profile'
       /\ 1 <= total_points profile'
       /\ 12 - 9 <= total_points profile'.
Proof.
  split; [reflexivity|]. split; [lia|].
  apply (total_points_floor (instant (19999 * day_ms)) "alice" true Sample.db
           Sample.alice); [reflexivity | simpl; lia].
Defined.

Lemma handle_new_user_profile uid db db0 :
  handle_new_user uid db = Some db0 ->
  profiles db !! uid = None
  /\ profiles db0 !! uid = Some default_profile
  /\ rewards db0 = rewards db /\ messages db0 = messages db
  /\ conversations db0 = conversations db.
Proof.
  unfold handle_new_user. destruct (profiles db !! uid) eqn:Hp; [discriminate|].
  intros [= <-]. simpl. rewrite lookup_insert_eq. auto.
Qed.

(** X3.  The first accrual of a newly provisioned user stores one
    point, a streak of 1 and today's date, whatever the boost flag and
    the clock readings: a new profile has no points to spend and no
    date to continue. *)
Theorem first_accrual_after_provisioning uid db db0 clock isBoost :
  handle_new_user uid db = Some db0 ->
  profiles (rewards_task clock uid isBoost db0) !! uid =
    Some {| total_points := 1; current_streak := 1;
            last_activity_date := Some (today (at_date clock)) |}.
Proof.
  intros Hnew.
  destruct (handle_new_user_profile _ _ _ Hnew) as (_ & Hp & _).
  destruct (rewards_task_stores clock uid isBoost db0 _ Hp) as [_ Hp'].
  rewrite Hp'. unfold accrued, points_to_add, new_streak, boost_deduction,
    streak_branches.
  simpl. rewrite andb_false_r. reflexivity.
Qed.

Lemma first_accrual_after_provisioning_witness :
  let db0 := default (Sample.db) (handle_new_user "bob" Sample.db) in
  handle_new_user "bob" Sample.db = Some db0
  /\ profiles (rewards_task Sample.midnight "bob" true db0) !! "bob" =
       Some {| total_points := 1; current_streak := 1;
               last_activity_date := Some (today (at_date Sample.midnight)) |}.
Proof.
  intros db0. split; [reflexivity|].
  apply (first_accrual_after_provisioning "bob" Sample.db db0
           Sample.midnight true).
  reflexivity.
Defined.

Lemma credited_sound profile : credited profile -> sound_profile profile.
Proof. unfold credited, sound_profile. intros (? & ? & ?). repeat split; auto; lia. Qed.

Lemma accrual_credits clock uid isBoost db profile :
  profiles db !! uid = Some profile ->
  sound_profile profile ->
  exists profile',
    profiles (rewards_task clock uid isBoost db) !! uid = Some profile'
    /\ credited profile'.
Proof.
  intros Hp (Htot & Hs0 & Hstreak).
  destruct (rewards_task_stores clock uid isBoost db profile Hp) as [_ Hp'].
  pose proof (accrual_total_floor clock isBoost profile Htot) as Hfloor.
  eexists. split; [exact Hp'|]. unfold credited. simpl.
  split; [exact Hfloor|]. split; [|eauto].
  unfold new_streak, streak_branches.
  destruct (date_is (last_activity_date profile) (today (at_date clock)))
    eqn:Ht; simpl.
  - apply Hstreak. apply date_is_true in Ht. rewrite Ht. eauto.
  - destruct (date_is (last_activity_date profile) (yesterday (at_now clock)));
      simpl; lia.
Qed.

Lemma run_calls_sound uid calls db profile :
  profiles db !! uid = Some profile ->
  sound_profile profile ->
  exists profile',
    profiles (run_calls uid calls db) !! uid = Some profile'
    /\ sound_profile profile'
    /\ (calls <> [] -> credited profile').
Proof.
  revert db profile. induction calls as [|[clock isBoost] rest IH];
    intros db profile Hp Hsound.
  - exists profile. simpl. split; [exact Hp|]. split; [exact Hsound|].
    intros Hne. congruence.
  - destruct (accrual_credits clock uid isBoost db profile Hp Hsound)
      as (p1 & Hp1 & Hc1).
    destruct (IH _ p1 Hp1 (credited_sound _ Hc1)) as (p' & Hp' & Hs' & Hc').
    exists p'. unfold run_calls in *. simpl. split; [exact Hp'|].
    split; [exact Hs'|]. intros _.
    destruct rest as [|c rest']; [|apply Hc'; discriminate].
    simpl in Hp'. rewrite Hp1 in Hp'. injection Hp' as <-. exact Hc1.
Qed.

(** X4.  From provisioning on, whatever accrual calls run and at
    whatever clock readings, the user's total and streak are never
    negative; and once one call has run the total is at least 1, the
    streak is at least 1 and an activity date is stored. *)
Theorem provisioned_profile_invariants uid db db0 calls :
  handle_new_user uid db = Some db0 ->
  exists profile,
    profiles (run_calls uid calls db0) !! uid = Some profile
    /\ 0 <= total_points profile
    /\ 0 <= current_streak profile
    /\ (calls <> [] ->
        1 <= total_points profile
        /\ 1 <= current_streak profile
        /\ is_Some (last_activity_date profile)).
Proof.
  intros Hnew.
  destruct (handle_new_user_profile _ _ _ Hnew) as (_ & Hp & _).
  assert (Hsound : sound_profile default_profile).
  { unfold sound_profile. simpl. repeat split; try lia.
    intros [x Hx]. discriminate Hx. }
  destruct (run_calls_sound uid calls db0 _ Hp Hsound)
    as (profile & Hp' & (Ht & Hs & _) & Hc).
  exists profile. auto.
Qed.

Lemma provisioned_profile_invariants_witness :
  let db0 := default (Sample.db) (handle_new_user "bob" Sample.db) in
  handle_new_user "bob" Sample.db = Some db0
  /\ exists profile,
       profiles (run_calls "bob" Fixtures.streak_week db0) !! "bob"
         = Some profile
       /\ 0 <= total_points profile
       /\ 0 <= current_streak profile
       /\ (Fixtures.streak_week <> [] ->
           1 <= total_points profile
           /\ 1 <= current_streak profile
           /\ is_Some (last_activity_date profile)).
Proof.
  intros db0. split; [reflexivity|].
  apply (provisioned_profile_invariants "bob" Sample.db db0
           Fixtures.streak_week).
  reflexivity.
Defined.

Lemma last_cons {A} (x d : A) (l : list A) :
  List.last (x :: l) d = List.last l x.
Proof.
  revert x d. induction l as [|y l IH]; intros x d; [reflexivity|].
  change (List.last (x :: y :: l) d) with (List.last (y :: l) d).
  rewrite (IH y d), (IH y x). reflexivity.
Qed.

Lemma streak_follows_days uid rest db profile d0 :
  profiles db !! uid = Some profile ->
  last_activity_date profile = Some d0 ->
  Forall (fun call => one_day (fst call)) rest ->
  day_by_day d0 (map (fun call => today (at_date (fst call))) rest) ->
  exists profile',
    profiles (run_calls uid rest db) !! uid = Some profile'
    /\ current_streak profile' =
       current_streak profile
       + (List.last (map (fun call => today (at_date (fst call))) rest) d0 - d0)
    /\ last_activity_date profile' =
       Some (List.last (map (fun call => today (at_date (fst call))) rest) d0).
Proof.
  revert db profile d0. induction rest as [|[clock isBoost] rest IH];
    intros db profile d0 Hp Hlast Hone Hdays.
  - exists profile. simpl. repeat split; auto. lia.
  - cbn [map fst] in *. destruct Hdays as [Hstep Hdays].
    inversion Hone as [|call calls Hclock Hone']; subst. cbn [fst] in Hclock.
    destruct (rewards_task_stores clock uid isBoost db profile Hp) as [_ Hp1].
    destruct (IH _ _ (today (at_date clock)) Hp1 eq_refl Hone' Hdays)
      as (p' & Hp' & Hs & Hl).
    exists p'. unfold run_calls in *. cbn [fold_left fst snd].
    split; [exact Hp'|]. rewrite last_cons. split; [|exact Hl].
    rewrite Hs. cbn [current_streak accrued].
    unfold new_streak, streak_branches.
    rewrite (yesterday_same_day _ Hclock), Hlast.
    cbn [date_is].
    destruct Hstep as [Hsame|Hnext]; rewrite Hsame || rewrite Hnext.
    + rewrite Z.eqb_refl. simpl. lia.
    + destruct (Z.eqb_spec d0 (d0 + 1)) as [|_]; [lia|]. simpl.
      replace (d0 + 1 - 1) with d0 by lia. rewrite Z.eqb_refl. simpl. lia.
Qed.

(** X5.  Calls whose two clock readings each fall on one day, that
    start after a gap (or on a new profile) and then come on the same
    day as the call before or on the next day, build a streak that
    counts the days: after the last call the streak is the number of
    days from the first call's day to the last call's day, both
    included. *)
Theorem streak_counts_consecutive_days uid db profile first rest :
  profiles db !! uid = Some profile ->
  Forall (fun call => one_day (fst call)) (first :: rest) ->
  last_activity_date profile <> Some (today (at_date (fst first))) ->
  last_activity_date profile <> Some (today (at_date (fst first)) - 1) ->
  day_by_day (today (at_date (fst first)))
             (map (fun call => today (at_date (fst call))) rest) ->
  let last_day :=
    List.last (map (fun call => today (at_date (fst call))) rest)
              (today (at_date (fst first))) in
  exists profile',
    profiles (run_calls uid (first :: rest) db) !! uid = Some profile'
    /\ current_streak profile' = last_day - today (at_date (fst first)) + 1
    /\ last_activity_date profile' = Some last_day.
Proof.
  intros Hp Hone Hnot_today Hnot_yesterday Hdays last_day.
  destruct first as [clock isBoost]. cbn [fst] in *.
  inversion Hone as [|call calls Hclock Hone']; subst. cbn [fst] in Hclock.
  destruct (rewards_task_stores clock uid isBoost db profile Hp) as [_ Hp1].
  destruct (streak_follows_days uid rest _ _ (today (at_date clock)) Hp1
              eq_refl Hone' Hdays) as (p' & Hp' & Hs & Hl).
  exists p'. unfold run_calls in *. cbn [fold_left fst snd].
  split; [exact Hp'|]. split; [|exact Hl].
  rewrite Hs. cbn [current_streak accrued]. subst last_day.
  unfold new_streak, streak_branches. rewrite (yesterday_same_day _ Hclock).
  apply date_is_false in Hnot_today, Hnot_yesterday.
  rewrite Hnot_today, Hnot_yesterday. simpl. lia.
Qed.

Lemma streak_counts_consecutive_days_witness :
  let first := (instant (20001 * day_ms + 5), false) in
  let rest := [ (instant (20001 * day_ms + 90), true);
                ({| at_date := 20002 * day_ms + 7;
                    at_now := 20002 * day_ms + 8 |}, false);
                (instant (20003 * day_ms), false) ] in
  let last_day :=
    List.last (map (fun call => today (at_date (fst call))) rest)
              (today (at_date (fst first))) in
  profiles Sample.db !! "alice" = Some Sample.alice
  /\ Forall (fun call => one_day (fst call)) (first :: rest)
  /\ Some 19999 <> Some (today (at_date (fst first)))
  /\ Some 19999 <> Some (today (at_date (fst first)) - 1)
  /\ day_by_day (today (at_date (fst first)))
                (map (fun call => today (at_date (fst call))) rest)
  /\ exists profile',
       profiles (run_calls "alice" (first :: rest) Sample.db) !! "alice"
         = Some profile'
       /\ current_streak profile' = last_day - today (at_date (fst first)) + 1
       /\ last_activity_date profile' = Some last_day.
Proof.
  intros first rest last_day.
  assert (H0 : Forall (fun call => one_day (fst call)) (first :: rest))
    by (repeat constructor).
  assert (H1 : last_activity_date Sample.alice
               <> Some (today (at_date (fst first))))
    by (vm_compute; discriminate).
  assert (H2 : last_activity_date Sample.alice
               <> Some (today (at_date (fst first)) - 1))
    by (vm_compute; discriminate).
  assert (H3 : day_by_day (today (at_date (fst first)))
                 (map (fun call => today (at_date (fst call))) rest))
    by (vm_compute; tauto).
  split; [reflexivity|]. split; [exact H0|]. split; [exact H1|].
  split; [exact H2|]. split; [exact H3|].
  apply (streak_counts_consecutive_days "alice" Sample.db Sample.alice
           first rest eq_refl H0 H1 H2 H3).
Defined.



End AccrualRuns.

(** ** The turn handler, further *)

Section HandlerMore.

Local Open Scope Z_scope.

Implicit Types (env : Env) (uid : string) (req : ChatRequest) (db : DB).

(** X7.  A request for which the identity service reports no user (no
    header, an empty header, an error, or no user) leaves the database
    as it was and gets no chat answer: an OPTIONS request gets the
    preflight response (a 200 without a body), every other request a
    500. *)
Theorem serve_needs_caller env (request : Request) db :
  caller env request = None ->
  snd (serve env request db) = db
  /\ (method request = "OPTIONS" /\ fst (serve env request db) = Preflight
      \/ method request <> "OPTIONS"
         /\ exists e, fst (serve env request db) = Answer (Error500 e)).
Proof.
  unfold caller, serve. intros Hc.
  destruct (String.eqb_spec (method request) "OPTIONS") as [Hm|Hm];
    [split; [reflexivity | left; auto]|].
  destruct (negb (truthy (GEMINI_API_KEY env)));
    [split; [reflexivity | right; eauto]|].
  destruct (negb (truthy (SUPABASE_URL env)) || negb (truthy (SUPABASE_ANON_KEY env)));
    [split; [reflexivity | right; eauto]|].
  destruct (authorization request) as [authHeader|];
    [|split; [reflexivity | right; eauto]].
  destruct (truthy (Some authHeader)); simpl;
    [|split; [reflexivity | right; eauto]].
  destruct (getUser env authHeader) as [reason|[uid|]];
    try discriminate Hc; (split; [reflexivity | right; eauto]).
Qed.

Lemma serve_needs_caller_witness :
  caller Sample.env Fixtures.anonymous = None
  /\ snd (serve Sample.env Fixtures.anonymous Sample.db) = Sample.db
  /\ (method Fixtures.anonymous = "OPTIONS"
      /\ fst (serve Sample.env Fixtures.anonymous Sample.db) = Preflight
      \/ method Fixtures.anonymous <> "OPTIONS"
         /\ exists e, fst (serve Sample.env Fixtures.anonymous Sample.db)
                      = Answer (Error500 e)).
Proof.
  split; [reflexivity|].
  apply (serve_needs_caller Sample.env Fixtures.anonymous Sample.db).
  reflexivity.
Defined.

(** What a turn that answers 500 has done: at most the conversation row. *)
Lemma turn_error env uid req db e :
  fst (turn env uid req db) = Error500 e ->
  messages (snd (turn env uid req db)) = messages db
  /\ profiles (snd (turn env uid req db)) = profiles db
  /\ rewards (snd (turn env uid req db)) = rewards db
  /\ style_packs (snd (turn env uid req db)) = style_packs db.
Proof.
  unfold turn.
  destruct (resolve_conversation env uid req db) as [e'|[cid db1]] eqn:Hres;
    [simpl; auto|].
  destruct (resolve_conversation_frame _ _ _ _ _ _ Hres) as (Hm & Hp & Hr & Hs).
  destruct (load_history env cid db1) as [history|]; [|simpl; auto].
  destruct (negb (ok _)); [simpl; auto|].
  destruct (json _) as [data|]; [|simpl; auto].
  destruct (candidate_text data) as [aiResponse|]; [|simpl; auto].
  simpl. discriminate.
Qed.

Lemma failed_turn_frame env uid req db e db' :
  turn env uid req db = (Error500 e, db') ->
  messages db' = messages db
  /\ profiles db' = profiles db
  /\ rewards db' = rewards db.
Proof.
  intros Hturn.
  destruct (turn_error env uid req db e) as (Hm & Hp & Hr & _);
    [now rewrite Hturn|].
  rewrite Hturn in Hm, Hp, Hr. auto.
Qed.

(** X8.  Whatever fails in a turn, a turn answered with a 500 has
    written no message row, updated no profile and appended no ledger
    entry. *)
Theorem failed_turn_writes_nothing env uid req db e db' :
  turn env uid req db = (Error500 e, db') ->
  messages db' = messages db
  /\ profiles db' = profiles db
  /\ rewards db' = rewards db.
Proof.
  intros Hturn.
  destruct (turn_error env uid req db e) as (Hm & Hp & Hr & _);
    [now rewrite Hturn|].
  rewrite Hturn in Hm, Hp, Hr. auto.
Qed.

Lemma failed_turn_writes_nothing_witness :
  let req := Sample.request "hello" in
  let db' := snd (turn Fixtures.history_failing_env "alice" req Sample.db) in
  turn Fixtures.history_failing_env "alice" req Sample.db
    = (Error500 FailedToFetchHistory, db')
  /\ messages db' = messages Sample.db
  /\ profiles db' = profiles Sample.db
  /\ rewards db' = rewards Sample.db.
Proof.
  intros req db'. split; [reflexivity|].
  apply (failed_turn_writes_nothing Fixtures.history_failing_env "alice" req
           Sample.db FailedToFetchHistory db').
  reflexivity.
Defined.

(** X9.  A turn answered with a 200, when the store accepts both
    inserts, has appended exactly two message rows to the table: the
    user's message, then the reply with the token count and the response
    time that the answer reports, both under the conversation id of the
    answer. *)
Theorem answered_turn_rows env uid req db r db' :
  turn env uid req db = (Ok200 r, db') ->
  userMsgError env = false ->
  aiMsgError env = false ->
  messages db' =
  messages db
  ++ [ {| conversation_id := responseConversationId r; role := user;
          content := message req;
          tokens_used := 0; response_time_ms := 0 |};
       {| conversation_id := responseConversationId r; role := assistant;
          content := response r;
          tokens_used := tokensUsed r;
          response_time_ms := responseTime r |} ].
Proof.
  intros Hturn Hu Ha.
  destruct (turn_ok _ _ _ _ _ _ Hturn) as (cid & db1 & Hres & Hcid & _ & Hdb).
  destruct (resolve_conversation_frame _ _ _ _ _ _ Hres) as (Hm & _).
  cbv zeta in Hdb. rewrite Hu, Ha in Hdb. subst db'.
  destruct (pointsAwarded r); rewrite ?rewards_task_messages;
    simpl; rewrite Hm, Hcid, <- app_assoc; reflexivity.
Qed.

Lemma answered_turn_rows_witness :
  let req := Sample.request "hello" in
  let r := {| response := "hi"; responseConversationId := "c1";
              tokensUsed := 7; responseTime := 250;
              pointsAwarded := true |} in
  let db' := snd (turn Sample.env "alice" req Sample.db) in
  turn Sample.env "alice" req Sample.db = (Ok200 r, db')
  /\ userMsgError Sample.env = false
  /\ aiMsgError Sample.env = false
  /\ messages db' =
     messages Sample.db
     ++ [ {| conversation_id := "c1"; role := user; content := "hello";
             tokens_used := 0; response_time_ms := 0 |};
          {| conversation_id := "c1"; role := assistant; content := "hi";
             tokens_used := 7; response_time_ms := 250 |} ].
Proof.
  intros req r db'.
  split; [reflexivity|]. split; [reflexivity|]. split; [reflexivity|].
  apply (answered_turn_rows Sample.env "alice" req Sample.db r db');
    reflexivity.
Defined.

(** X10.  The table of messages only grows in a turn, by at most two
    rows, whatever the store and the completion service do. *)
Theorem messages_append_only env uid req db :
  exists added,
    messages (snd (turn env uid req db)) = messages db ++ added
    /\ (length added <= 2)%nat.
Proof.
  destruct (turn env uid req db) as [[r|e] db'] eqn:Hturn.
  - destruct (turn_ok _ _ _ _ _ _ Hturn) as (cid & db1 & Hres & _ & _ & Hdb).
    destruct (resolve_conversation_frame _ _ _ _ _ _ Hres) as (Hm & _).
    cbv zeta in Hdb. cbn [snd]. subst db'.
    exists ((if userMsgError env then []
             else [ {| conversation_id := cid; role := user;
                       content := message req;
                       tokens_used := 0; response_time_ms := 0 |} ])
            ++ (if aiMsgError env then []
                else [ {| conversation_id := cid; role := assistant;
                          content := response r;
                          tokens_used := tokensUsed r;
                          response_time_ms := responseTime r |} ])).
    split.
    + destruct (pointsAwarded r); rewrite ?rewards_task_messages;
        destruct (userMsgError env), (aiMsgError env); simpl;
        rewrite Hm, ?app_nil_r, <- ?app_assoc; reflexivity.
    + destruct (userMsgError env), (aiMsgError env); simpl; lia.
  - destruct (failed_turn_frame env uid req db e db' Hturn) as (Hm & _).
    exists []. cbn [snd]. rewrite app_nil_r. split; [exact Hm | simpl; lia].
Qed.

Lemma rewards_task_other clock uid isBoost db other :
  other <> uid ->
  profiles (rewards_task clock uid isBoost db) !! other = profiles db !! other.
Proof.
  intros Hne. destruct (profiles db !! uid) as [profile|] eqn:Hp.
  - rewrite (rewards_task_existing _ _ _ _ _ Hp). simpl.
    apply lookup_insert_ne. congruence.
  - now rewrite rewards_task_absent.
Qed.

Lemma rewards_task_ledger clock uid isBoost db :
  exists added,
    rewards (rewards_task clock uid isBoost db) = rewards db ++ added
    /\ (length added <= 1)%nat
    /\ Forall (fun entry => reward_user_id entry = uid) added.
Proof.
  exists []. rewrite app_nil_r. split; [|split; [simpl; lia | constructor]].
  destruct (profiles db !! uid) as [profile|] eqn:Hp.
  - now rewrite (rewards_task_existing _ _ _ _ _ Hp).
  - now rewrite rewards_task_absent.
Qed.

(** X11.  A turn of one user never changes the profile of another
    user, and what it adds to the ledger is at most one entry, of the
    caller. *)
Theorem turn_touches_only_caller env uid req db other :
  other <> uid ->
  profiles (snd (turn env uid req db)) !! other = profiles db !! other
  /\ exists added,
       rewards (snd (turn env uid req db)) = rewards db ++ added
       /\ (length added <= 1)%nat
       /\ Forall (fun entry => reward_user_id entry = uid) added.
Proof.
  intros Hne.
  destruct (turn env uid req db) as [[r|e] db'] eqn:Hturn; cbn [snd].
  - destruct (turn_ok _ _ _ _ _ _ Hturn) as (cid & db1 & Hres & _ & _ & Hdb).
    destruct (resolve_conversation_frame _ _ _ _ _ _ Hres) as (_ & Hp & Hr & _).
    cbv zeta in Hdb. subst db'.
    set (db3 := if aiMsgError env then _ else _).
    assert (Hp3 : profiles db3 = profiles db)
      by (subst db3; destruct (userMsgError env), (aiMsgError env); exact Hp).
    assert (Hr3 : rewards db3 = rewards db)
      by (subst db3; destruct (userMsgError env), (aiMsgError env); exact Hr).
    destruct (pointsAwarded r).
    + rewrite rewards_task_other by exact Hne. rewrite Hp3.
      split; [reflexivity|].
      destruct (rewards_task_ledger (rewardsTime env) uid
                  (truthy_flag (isBoost req)) db3) as (added & Ha & Hl & Hall).
      exists added. rewrite Ha, Hr3. auto.
    + rewrite Hp3, Hr3. split; [reflexivity|].
      exists []. rewrite app_nil_r. split; [reflexivity|].
      split; [simpl; lia | constructor].
  - destruct (failed_turn_frame _ _ _ _ _ _ Hturn) as (_ & Hp & Hr).
    rewrite Hp, Hr. split; [reflexivity|].
    exists []. rewrite app_nil_r. split; [reflexivity|].
    split; [simpl; lia | constructor].
Qed.

Lemma turn_touches_only_caller_witness :
  let req := Sample.request "hello" in
  "alice" <> "bob"
  /\ profiles (snd (turn Sample.env "bob" req Sample.db)) !! "alice"
     = profiles Sample.db !! "alice"
  /\ exists added,
       rewards (snd (turn Sample.env "bob" req Sample.db))
         = rewards Sample.db ++ added
       /\ (length added <= 1)%nat
       /\ Forall (fun entry => reward_user_id entry = "bob") added.
Proof.
  intros req.
  assert (Hne : "alice" <> "bob") by discriminate.
  split; [exact Hne|].
  apply (turn_touches_only_caller Sample.env "bob" req Sample.db "alice" Hne).
Defined.

(** X12.  The reply text of a turn answered with a 200 is never empty:
    a reply whose text is present but empty is refused like a missing
    one. *)
Theorem answered_turn_has_text env uid req db r db' :
  turn env uid req db = (Ok200 r, db') ->
  response r <> "".
Proof.
  unfold turn. intros H.
  destruct (resolve_conversation env uid req db) as [e|[cid db1]];
    [discriminate|].
  destruct (load_history env cid db1) as [history|]; [|discriminate].
  destruct (negb (ok _)); [discriminate|].
  destruct (json _) as [data|]; [|discriminate].
  destruct (candidate_text data) as [aiResponse|] eqn:Htext; [|discriminate].
  inversion H; subst; clear H. simpl.
  unfold candidate_text in Htext.
  destruct (candidates data) as [cs|]; [|discriminate].
  destruct (first_text cs) as [t|]; [|discriminate].
  destruct (truthy (Some t)) eqn:Ht; [|discriminate].
  injection Htext as <-. simpl in Ht.
  intros ->. discriminate Ht.
Qed.

Lemma answered_turn_has_text_witness :
  let req := Sample.request "hello" in
  let r := {| response := "hi"; responseConversationId := "c1";
              tokensUsed := 7; responseTime := 250;
              pointsAwarded := true |} in
  let db' := snd (turn Sample.env "alice" req Sample.db) in
  turn Sample.env "alice" req Sample.db = (Ok200 r, db')
  /\ response r <> "".
Proof.
  intros req r db'. split; [reflexivity|].
  apply (answered_turn_has_text Sample.env "alice" req Sample.db r db').
  reflexivity.
Defined.

(** X13.  A style pack id that the table does not resolve is as good as
    none: the turn answers, and leaves the database, exactly as the same
    request without a style pack does. *)
Theorem unknown_style_pack_is_ignored env uid req db :
  stylePackId req ≫= (fun sp => style_packs db !! sp) = None ->
  turn env uid req db = turn env uid (without_style_pack req) db.
Proof.
  intros Hmiss. unfold turn.
  change (resolve_conversation env uid (without_style_pack req) db)
    with (resolve_conversation env uid req db).
  destruct (resolve_conversation env uid req db) as [e|[cid db1]] eqn:Hres;
    [reflexivity|].
  destruct (resolve_conversation_frame _ _ _ _ _ _ Hres) as (_ & _ & _ & Hs).
  assert (Hsys : system_prompt req db1
                 = system_prompt (without_style_pack req) db1).
  { unfold system_prompt. rewrite Hs, Hmiss. simpl.
    destruct (truthy (stylePackId req)); reflexivity. }
  rewrite Hsys. reflexivity.
Qed.

Lemma unknown_style_pack_is_ignored_witness :
  stylePackId Fixtures.styled
    ≫= (fun sp => style_packs Sample.long_db !! sp) = None
  /\ turn Sample.env "alice" Fixtures.styled Sample.long_db
     = turn Sample.env "alice" (without_style_pack Fixtures.styled)
         Sample.long_db.
Proof.
  split; [reflexivity|].
  apply (unknown_style_pack_is_ignored Sample.env "alice" Fixtures.styled
           Sample.long_db).
  reflexivity.
Defined.

(** X14.  A turn on a given conversation id creates no conversation and,
    when answered, reports that id back; the handler itself does not
    look the id up among the conversations. *)
Theorem given_conversation_is_kept env uid req db cid :
  conversationId req = Some cid ->
  cid <> "" ->
  conversations (snd (turn env uid req db)) = conversations db
  /\ forall r, fst (turn env uid req db) = Ok200 r ->
               responseConversationId r = cid.
Proof.
  intros Hcid Hne.
  assert (Hres : resolve_conversation env uid req db = inr (cid, db)).
  { unfold resolve_conversation. rewrite Hcid. simpl.
    destruct (String.eqb_spec cid ""); [contradiction | reflexivity]. }
  exact (turn_conversation _ _ _ _ _ _ Hres).
Qed.

Lemma given_conversation_is_kept_witness :
  conversationId Sample.follow_up = Some "c1"
  /\ "c1" <> ""
  /\ conversations (snd (turn Sample.env "alice" Sample.follow_up Sample.db))
     = conversations Sample.db
  /\ forall r, fst (turn Sample.env "alice" Sample.follow_up Sample.db) = Ok200 r ->
               responseConversationId r = "c1".
Proof.
  assert (Hne : "c1" <> "") by discriminate.
  split; [reflexivity|]. split; [exact Hne|].
  apply (given_conversation_is_kept Sample.env "alice" Sample.follow_up
           Sample.db "c1" eq_refl Hne).
Defined.

(** X15.  When the history cannot be read for a conversation that the
    turn has just created, the turn fails and the new conversation row
    stays behind, without messages. *)
Theorem history_failure_keeps_conversation env uid req db newId :
  truthy (conversationId req) = false ->
  newConversation env = Some newId ->
  historyError env = true ->
  turn env uid req db =
  (Error500 FailedToFetchHistory,
   insert_conversation
     {| conv_id := newId; conv_user_id := uid;
        title := conversation_title (message req) |} db).
Proof.
  intros Habsent Hnew Hhist. unfold turn.
  rewrite (resolve_conversation_new env uid req db newId Habsent Hnew).
  unfold load_history. rewrite Hhist. reflexivity.
Qed.

Lemma history_failure_keeps_conversation_witness :
  let req := Sample.request "hello" in
  truthy (conversationId req) = false
  /\ newConversation Fixtures.history_failing_env = Some "c1"
  /\ historyError Fixtures.history_failing_env = true
  /\ turn Fixtures.history_failing_env "alice" req Sample.db =
     (Error500 FailedToFetchHistory,
      insert_conversation
        {| conv_id := "c1"; conv_user_id := "alice";
           title := conversation_title (message req) |} Sample.db).
Proof.
  intros req.
  split; [reflexivity|]. split; [reflexivity|]. split; [reflexivity|].
  apply (history_failure_keeps_conversation Fixtures.history_failing_env
           "alice" req Sample.db "c1"); reflexivity.
Defined.

End HandlerMore.

(** ** Text, further *)

Section TextMore.

Local Open Scope nat_scope.

Lemma length_append (s1 s2 : string) :
  String.length (s1 +:+ s2) = String.length s1 + String.length s2.
Proof.
  induction s1 as [|c s1 IH]; [reflexivity|].
  change (String c s1 +:+ s2) with (String c (s1 +:+ s2)).
  change (S (String.length (s1 +:+ s2))
          = S (String.length s1 + String.length s2)).
  now rewrite IH.
Qed.

Lemma length_first_chars n (s : string) :
  String.length (first_chars n s) = Nat.min n (String.length s).
Proof.
  unfold first_chars. rewrite <- (length_list_ascii (string_of_list_ascii _)).
  rewrite list_ascii_of_string_of_list_ascii, length_take, length_list_ascii.
  reflexivity.
Qed.

(** X16.  The title of a new conversation is the message itself when
    the message has at most 50 characters, and otherwise has exactly 53
    characters, the first 50 of the message and three dots; it is never
    longer than 53. *)
Theorem conversation_title_length (message : string) :
  String.length (conversation_title message) <= 53
  /\ (String.length message <= 50 -> conversation_title message = message)
  /\ (50 < String.length message ->
      conversation_title message = first_chars 50 message +:+ "..."
      /\ String.length (conversation_title message) = 53).
Proof.
  unfold conversation_title.
  change 50%Z with (Z.of_nat 50). rewrite slice_first_chars.
  destruct (Nat.ltb_spec 50 (String.length message)) as [Hlong|Hshort].
  - rewrite length_append, length_first_chars. simpl String.length.
    repeat split; lia.
  - assert (Hall : first_chars 50 message = message).
    { unfold first_chars. rewrite take_ge by (rewrite length_list_ascii; lia).
      apply string_of_list_ascii_of_string. }
    rewrite Hall.
    assert (Hnil : message +:+ "" = message)
      by (clear; induction message as [|c m IH]; [reflexivity|];
          change (String c m +:+ "") with (String c (m +:+ ""));
          now rewrite IH).
    rewrite Hnil. repeat split; lia.
Qed.

Lemma matcher_ext ic r input i (k1 k2 : nat -> bool) :
  (forall j, k1 j = k2 j) ->
  matcher ic r input i k1 = matcher ic r input i k2.
Proof.
  revert i k1 k2. induction r as [|c|r1 IH1 r2 IH2|r1 IH1 r2 IH2|];
    intros i k1 k2 Hk; cbn [matcher].
  - apply Hk.
  - destruct (input !! i); [rewrite Hk|]; reflexivity.
  - apply IH1. intros j. now apply IH2.
  - rewrite (IH1 i k1 k2 Hk), (IH2 i k1 k2 Hk). reflexivity.
  - now rewrite Hk.
Qed.

Lemma matcher_flag_free r input :
  lower_pattern r ->
  Forall (fun d => in_range 65 90 d = false) input ->
  forall i k, matcher true r input i k = matcher false r input i k.
Proof.
  intros Hr Hinput.
  induction r as [|c|r1 IH1 r2 IH2|r1 IH1 r2 IH2|]; intros i k;
    cbn [matcher]; cbn [lower_pattern] in Hr.
  - reflexivity.
  - destruct (input !! i) as [d|] eqn:Hi; [|reflexivity].
    assert (Hd : in_range 65 90 d = false).
    { rewrite Forall_forall in Hinput. apply Hinput.
      eapply list_elem_of_lookup_2. exact Hi. }
    f_equal. unfold canonicalize at 3 4. simpl.
    destruct (Ascii.eqb_spec c d) as [->|Hne].
    + apply Ascii.eqb_refl.
    + apply Ascii.eqb_neq. intros Heq. apply Hne.
      now apply canonicalize_lower.
  - destruct Hr as [H1 H2]. rewrite (IH1 H1).
    apply matcher_ext. intros j. now apply IH2.
  - destruct Hr as [H1 H2]. now rewrite (IH1 H1), (IH2 H2).
  - reflexivity.
Qed.

Lemma literal_lower (l : list ascii) :
  Forall (fun c => in_range 97 122 c = true) l -> lower_pattern (literal l).
Proof.
  induction 1; cbn [literal lower_pattern]; auto.
Qed.

(** X17.  The flag [i] of the content screen changes nothing: the
    message is lower-cased before the test, and on a lower-cased text
    the pattern matches with the flag exactly when it matches without. *)
Theorem screen_flag_is_redundant (message : string) :
  isHarmful message = test false harmful_pattern (toLowerCase message).
Proof.
  unfold isHarmful, test.
  pose proof (toLowerCase_no_upper message) as Hup.
  assert (Hlow : lower_pattern harmful_pattern).
  { unfold harmful_pattern. cbn [lower_pattern].
    repeat split;
      apply literal_lower, (banned_words_plain _); simpl; tauto. }
  induction (seq 0 (S (length (list_ascii_of_string (toLowerCase message)))))
    as [|i positions IH]; [reflexivity|].
  cbn [existsb]. rewrite IH.
  now rewrite (matcher_flag_free _ _ Hlow Hup).
Qed.

End TextMore.

(** ** The chat client *)

Section ClientFacts.

Local Open Scope Z_scope.

Lemma ceil_div_bounds a b :
  0 < b -> (ceil_div a b - 1) * b < a <= ceil_div a b * b.
Proof.
  intros Hb. unfold ceil_div.
  pose proof (Z.mul_div_le (- a) b Hb).
  pose proof (Z.mul_succ_div_gt (- a) b Hb).
  nia.
Qed.

(** X18.  The label of a conversation's date goes by the time elapsed
    in either direction, in periods of 24 hours and not by calendar day:
    up to one period ago it is "Today", up to two "Yesterday", up to
    seven "n days ago" with n from 2 to 6, the number of periods fully
    elapsed, and beyond that the locale's date.  A date equal to the
    clock reading is labelled "-1 days ago". *)
Theorem formatDate_by_elapsed_time (date now : Z) :
  let elapsed := Z.abs (now - date) in
  (elapsed = 0 -> formatDate date now = DaysAgo (-1))
  /\ (0 < elapsed <= day_ms -> formatDate date now = Today)
  /\ (day_ms < elapsed <= 2 * day_ms -> formatDate date now = Yesterday)
  /\ (forall n, 2 <= n <= 6 ->
        n * day_ms < elapsed <= (n + 1) * day_ms ->
        formatDate date now = DaysAgo n)
  /\ (7 * day_ms < elapsed -> formatDate date now = LocaleDateString)
  /\ formatDate date now = formatDate now date.
Proof.
  intros elapsed. unfold formatDate. fold elapsed.
  change (1000 * 60 * 60 * 24) with 86400000. unfold day_ms.
  change (24 * 60 * 60 * 1000) with 86400000.
  pose proof (ceil_div_bounds elapsed 86400000 ltac:(lia)) as Hc.
  set (diffDays := ceil_div elapsed 86400000) in *.
  repeat split.
  - intros H0. assert (diffDays = 0) as -> by lia. reflexivity.
  - intros H. assert (diffDays = 1) as -> by lia. reflexivity.
  - intros H. assert (diffDays = 2) as -> by lia. reflexivity.
  - intros n Hn H. assert (diffDays = n + 1) as -> by lia.
    destruct (Z.eqb_spec (n + 1) 1); [lia|].
    destruct (Z.eqb_spec (n + 1) 2); [lia|].
    destruct (Z.leb_spec (n + 1) 7); [|lia].
    f_equal. lia.
  - intros H.
    destruct (Z.eqb_spec diffDays 1); [lia|].
    destruct (Z.eqb_spec diffDays 2); [lia|].
    destruct (Z.leb_spec diffDays 7); [lia|]. reflexivity.
  - subst diffDays elapsed.
    replace (Z.abs (date - now)) with (Z.abs (now - date)) by lia.
    reflexivity.
Qed.

Lemma filter_indexed_app {A} (keep : A -> nat -> bool) (l1 l2 : list A) i :
  filter_indexed keep i (l1 ++ l2) =
  filter_indexed keep i l1 ++ filter_indexed keep (i + length l1) l2.
Proof.
  revert i. induction l1 as [|x l1 IH]; intros i; simpl.
  - now rewrite Nat.add_0_r.
  - rewrite IH. replace (S i + length l1)%nat with (i + S (length l1))%nat by lia.
    destruct (keep x i); reflexivity.
Qed.

Lemma filter_indexed_all {A} (keep : A -> nat -> bool) (l : list A) i :
  (forall j x, l !! j = Some x -> keep x (i + j)%nat = true) ->
  filter_indexed keep i l = l.
Proof.
  revert i. induction l as [|x l IH]; intros i Hall; simpl; [reflexivity|].
  pose proof (Hall 0%nat x eq_refl) as H0. rewrite Nat.add_0_r in H0.
  rewrite H0. f_equal. apply IH. intros j y Hj.
  replace (S i + j)%nat with (i + S j)%nat by lia. now apply Hall.
Qed.

(** The test of [handleRegenerate] holds of a message exactly when it is
    a reply that closes the list right after a message of the user. *)
Lemma isLastAiMessage_spec (messages : list ClientMessage) msg index :
  messages !! index = Some msg ->
  isLastAiMessage messages msg index = true <->
  exists front u,
    messages = front ++ [u; msg] /\ index = S (length front)
    /\ msg_role u = user /\ msg_role msg = assistant.
Proof.
  intros Hmsg. unfold isLastAiMessage.
  rewrite !andb_true_iff, Z.eqb_eq. split.
  - intros [[Hrole Hlast] Hprev].
    destruct index as [|before]; [discriminate|].
    destruct (messages !! before) as [u|] eqn:Hu; [|discriminate].
    exists (take before messages), u.
    assert (Hlen : length messages = S (S before)) by lia.
    split; [|split; [|split]].
    + rewrite <- (take_drop_middle messages before u Hu) at 1. f_equal.
      rewrite (drop_S _ _ _ Hmsg), drop_ge by lia. reflexivity.
    + rewrite length_take. lia.
    + now destruct (msg_role u).
    + now destruct (msg_role msg).
  - intros (front & u & -> & -> & Hu & Ha).
    rewrite Ha. rewrite length_app. simpl.
    rewrite list_lookup_middle by reflexivity. rewrite Hu.
    repeat split; lia.
Qed.

(** X19.  Regenerating removes from the list the last message exactly
    when it is a reply that directly follows a message of the user;
    every other list, and every other message, is kept as it is. *)
Theorem regenerate_drops_last_reply (messages : list ClientMessage) :
  (forall front u a,
     messages = front ++ [u; a] ->
     msg_role u = user -> msg_role a = assistant ->
     filteredMessages messages = front ++ [u])
  /\ ((~ exists front u a,
          messages = front ++ [u; a]
          /\ msg_role u = user /\ msg_role a = assistant) ->
      filteredMessages messages = messages).
Proof.
  split.
  - intros front u a Hm Hu Ha. unfold filteredMessages.
    assert (Hsplit : messages = (front ++ [u]) ++ [a])
      by (rewrite Hm, <- app_assoc; reflexivity).
    assert (Hlast : isLastAiMessage messages a (length (front ++ [u])) = true).
    { apply isLastAiMessage_spec.
      - rewrite Hsplit. now rewrite list_lookup_middle.
      - exists front, u. rewrite length_app. simpl.
        repeat split; auto. lia. }
    set (keep := fun msg index => negb (isLastAiMessage messages msg index)).
    assert (Hdrop : keep a (length (front ++ [u])) = false)
      by (unfold keep; now rewrite Hlast).
    rewrite Hsplit, filter_indexed_app. simpl. rewrite Hdrop.
    rewrite app_nil_r.
    apply filter_indexed_all. intros j x Hj. unfold keep. simpl.
    apply negb_true_iff. destruct (isLastAiMessage messages x j) eqn:Hx;
      [|reflexivity].
    assert (Hjm : messages !! j = Some x).
    { rewrite Hsplit. rewrite lookup_app_l; [exact Hj|].
      now apply lookup_lt_Some in Hj. }
    apply (isLastAiMessage_spec _ _ _ Hjm) in Hx
      as (front' & u' & Hm' & Hlen' & _).
    apply lookup_lt_Some in Hj. rewrite length_app in Hj.
    apply (f_equal length) in Hm, Hm'. rewrite length_app in Hm, Hm'.
    exfalso. cbn [length] in *. lia.
  - intros Hnot. unfold filteredMessages.
    apply filter_indexed_all. intros j x Hj. simpl.
    apply negb_true_iff. destruct (isLastAiMessage messages x j) eqn:Hx;
      [|reflexivity].
    apply (isLastAiMessage_spec _ _ _ Hj) in Hx
      as (front & u & Hm & _ & Hu & Ha).
    exfalso. apply Hnot. exists front, u, x. auto.
Qed.

Lemma find_rev {A} (f : A -> bool) (l : list A) :
  match List.find f (rev l) with
  | Some x =>
      exists before after,
        l = before ++ x :: after /\ f x = true
        /\ Forall (fun y => f y = false) after
  | None => Forall (fun y => f y = false) l
  end.
Proof.
  induction l as [|y l IH] using rev_ind; [constructor|].
  rewrite rev_unit. simpl. destruct (f y) eqn:Hy.
  - exists l, []. repeat split; auto.
  - destruct (List.find f (rev l)) as [x|].
    + destruct IH as (before & after & -> & Hx & Hafter).
      exists before, (after ++ [y]). rewrite <- app_assoc. simpl.
      repeat split; auto. apply Forall_app. split; [exact Hafter|].
      now repeat constructor.
    + apply Forall_app. split; [exact IH|]. now repeat constructor.
Qed.

(** X20.  When regenerating goes ahead, the input it sets is the text
    of the last message of the user in the list, and no turn is being
    generated. *)
Theorem regenerate_asks_last_user_message (st st' : ChatState) :
  handleRegenerate st = Some st' ->
  exists before lastUser after,
    st_messages st = before ++ lastUser :: after
    /\ msg_role lastUser = user
    /\ Forall (fun msg => msg_role msg = assistant) after
    /\ st_input st' = msg_content lastUser
    /\ st_messages st' = filteredMessages (st_messages st)
    /\ st_isGenerating st = false.
Proof.
  unfold handleRegenerate, lastUserMessage. intros H.
  destruct ((length (st_messages st) =? 0)%nat) eqn:Hlen; [discriminate|].
  destruct (st_isGenerating st) eqn:Hgen; [discriminate|]. simpl in H.
  pose proof (find_rev (fun msg => is_user (msg_role msg)) (st_messages st))
    as Hfind.
  destruct (List.find _ (rev (st_messages st))) as [lastUser|]; [|discriminate].
  destruct Hfind as (before & after & Hm & Hu & Hafter).
  injection H as <-. exists before, lastUser, after. simpl.
  repeat split; auto.
  - now destruct (msg_role lastUser).
  - eapply Forall_impl; [exact Hafter|]. intros msg Hmsg. simpl in Hmsg.
    now destruct (msg_role msg).
Qed.

Lemma regenerate_asks_last_user_message_witness :
  let st' := {| st_messages := [ Fixtures.shown "1" user "first";
                                 Fixtures.shown "2" assistant "one";
                                 Fixtures.shown "3" user "second" ];
                st_input := "second"; st_isGenerating := false |} in
  handleRegenerate Fixtures.viewing = Some st'
  /\ exists before lastUser after,
       st_messages Fixtures.viewing = before ++ lastUser :: after
       /\ msg_role lastUser = user
       /\ Forall (fun msg => msg_role msg = assistant) after
       /\ st_input st' = msg_content lastUser
       /\ st_messages st' = filteredMessages (st_messages Fixtures.viewing)
       /\ st_isGenerating Fixtures.viewing = false.
Proof.
  intros st'. split; [reflexivity|].
  apply (regenerate_asks_last_user_message Fixtures.viewing st').
  reflexivity.
Defined.

(** X21.  Regenerating does nothing, leaving messages and input alone,
    exactly when a turn is being generated or the list holds no message
    of the user (an empty list included). *)
Theorem regenerate_does_nothing (st : ChatState) :
  handleRegenerate st = None <->
  st_isGenerating st = true
  \/ Forall (fun msg => msg_role msg = assistant) (st_messages st).
Proof.
  unfold handleRegenerate, lastUserMessage.
  pose proof (find_rev (fun msg => is_user (msg_role msg)) (st_messages st))
    as Hfind.
  destruct (st_isGenerating st) eqn:Hgen.
  - rewrite orb_true_r. split; auto.
  - rewrite orb_false_r.
    destruct (st_messages st) as [|m rest] eqn:Hm.
    + simpl. split; [intros _; right; constructor | reflexivity].
    + cbn [length Nat.eqb]. rewrite <- Hm in *.
      destruct (List.find _ (rev (st_messages st))) as [lastUser|].
      * destruct Hfind as (before & after & Hl & Hu & _).
        split; [discriminate|]. intros [Habs|Hall]; [discriminate|].
        rewrite Hl in Hall. apply Forall_app in Hall as [_ Hall].
        inversion Hall as [|x l Hrole _]; subst.
        rewrite Hrole in Hu. discriminate.
      * split; [|reflexivity]. intros _. right.
        eapply Forall_impl; [exact Hfind|]. intros msg Hmsg. simpl in Hmsg.
        now destruct (msg_role msg).
Qed.

(** X22.  A send that fails restores the list: removing the pending
    message after it was added gives back the list as it was, provided
    no message of the list carries the pending message's id. *)
Theorem failed_send_restores_messages (temp : ClientMessage)
    (prev : list ClientMessage) :
  Forall (fun msg => msg_id msg <> msg_id temp) prev ->
  remove_pending temp (add_pending temp prev) = prev.
Proof.
  intros Hids. unfold remove_pending, add_pending.
  rewrite List.filter_app. simpl. rewrite String.eqb_refl. simpl.
  rewrite app_nil_r. induction Hids as [|m prev Hm _ IH]; [reflexivity|].
  simpl. apply String.eqb_neq in Hm. rewrite Hm. simpl. now rewrite IH.
Qed.

Lemma failed_send_restores_messages_witness :
  let temp := tempUserMessage 1728000000000 "2024-10-04T00:00:00.000Z" "third" in
  Forall (fun msg => msg_id msg <> msg_id temp) Fixtures.thread
  /\ remove_pending temp (add_pending temp Fixtures.thread) = Fixtures.thread.
Proof.
  intros temp.
  assert (Hids : Forall (fun msg => msg_id msg <> msg_id temp) Fixtures.thread)
    by (repeat constructor; discriminate).
  split; [exact Hids|].
  apply (failed_send_restores_messages temp Fixtures.thread Hids).
Defined.

(** X23.  The client that calls the completion service itself shows the
    same text as the handler whenever the handler accepts the reply.
    Where the handler refuses the reply, either the reply carries no
    text and the client shows "No response", or its text is present and
    empty and the client shows that empty text. *)
Theorem client_reply_agrees_with_handler (data : GeminiData) :
  (forall t, candidate_text data = Some t -> client_reply_text data = t)
  /\ (candidate_text data = None ->
      (candidates data ≫= first_text = None
       /\ client_reply_text data = "No response")
      \/ (candidates data ≫= first_text = Some ""
          /\ client_reply_text data = "")).
Proof.
  unfold candidate_text, client_reply_text.
  destruct (candidates data) as [cs|]; simpl;
    [|split; [discriminate | auto]].
  destruct (first_text cs) as [t|]; [|split; [discriminate | auto]].
  simpl. destruct (String.eqb_spec t "") as [->|Hne]; simpl.
  - split; [discriminate | auto].
  - split; [intros t' [= <-]; reflexivity | discriminate].
Qed.

End ClientFacts.
